(** * Currency converter over the Frankfurter rate service

    A shallow embedding of [global_currency_calibrator.py]: the currency-code
    validation, the two rate-client functions and the conversion pipeline of
    the GUI class, with the properties stated about them.

    Python values are modelled as follows.
    - [str] is a list of Unicode code points ([pystr]).
    - [float] is IEEE-754 binary64, the kernel's primitive [float].
    - [int] is [Z].
    - a [dict] read from JSON is a finite map ([gmap]); a [dict] whose
      iteration order is observed is an insertion-ordered association list.
    - a raised exception is the [Raise] case of [result]. *)

From Stdlib Require Import ZArith NArith List Bool Lia.
From Stdlib Require Import Floats.PrimFloat Floats.SpecFloat Floats.FloatOps.
From Stdlib Require Import Floats.FloatAxioms.
From Stdlib Require Import Strings.String Strings.Ascii.
From stdpp Require Import base option list sorting gmap.

Set Default Proof Using "Type".
Local Open Scope Z_scope.

(** ** Strings *)

Definition codepoint := N.
Definition pystr := list N.

(** A source literal made of ASCII characters, as a Python [str]. *)
Definition lit (s : string) : pystr :=
  map N_of_ascii (list_ascii_of_string s).

(** The part of the Unicode character database that [str.strip],
    [str.upper] and [str.isalpha] consult. *)
Class CharDb := {
  chr_isspace : codepoint -> bool;
  chr_isalpha : codepoint -> bool;
  chr_upper : codepoint -> list codepoint   (* full mapping: may be longer than one *)
}.

Section Str.
Context {db : CharDb}.

Fixpoint lstrip (s : pystr) : pystr :=
  match s with
  | c :: r => if chr_isspace c then lstrip r else s
  | [] => []
  end.

Definition rstrip (s : pystr) : pystr := rev (lstrip (rev s)).

(** [s.strip()] *)
Definition strip (s : pystr) : pystr := rstrip (lstrip s).

(** [s.upper()] *)
Definition upper (s : pystr) : pystr := flat_map chr_upper s.

(** [s.isalpha()]: false on the empty string. *)
Definition isalpha (s : pystr) : bool :=
  match s with
  | [] => false
  | _ => forallb chr_isalpha s
  end.
End Str.

(** [a < b] on [str]: lexicographic on code points. *)
Fixpoint str_ltb (a b : pystr) : bool :=
  match a, b with
  | _, [] => false
  | [], _ :: _ => true
  | x :: a', y :: b' => (x <? y)%N || ((x =? y)%N && str_ltb a' b')
  end.

Definition str_leb (a b : pystr) : bool := negb (str_ltb b a).

(** [needle in hay] for two strings. *)
Fixpoint is_prefix (p s : pystr) : bool :=
  match p, s with
  | [], _ => true
  | _ :: _, [] => false
  | x :: p', y :: s' => (x =? y)%N && is_prefix p' s'
  end.

Fixpoint str_contains (needle hay : pystr) : bool :=
  is_prefix needle hay ||
  match hay with
  | [] => false
  | _ :: hay' => str_contains needle hay'
  end.

(** *** A character table for Basic Latin and Latin-1

    The table agrees with CPython on U+0000..U+00FF; it also knows the
    white-space code points beyond that range and the two letters that
    Latin-1 letters upper-case to outside it (U+0178, U+039C). Any other
    code point is outside the table and is treated as a caseless
    non-letter. *)

Definition in_range (lo hi c : N) : bool := ((lo <=? c) && (c <=? hi))%N.

Definition latin1_isspace (c : codepoint) : bool :=
  in_range 9 13 c || in_range 28 32 c || (c =? 133)%N || (c =? 160)%N
  || (c =? 5760)%N || in_range 8192 8202 c || in_range 8232 8233 c
  || (c =? 8239)%N || (c =? 8287)%N || (c =? 12288)%N.

Definition latin1_isalpha (c : codepoint) : bool :=
  in_range 65 90 c || in_range 97 122 c
  || (c =? 170)%N || (c =? 181)%N || (c =? 186)%N
  || in_range 192 214 c || in_range 216 246 c || in_range 248 255 c
  || (c =? 376)%N || (c =? 924)%N.

Definition latin1_upper (c : codepoint) : list codepoint :=
  if in_range 97 122 c then [c - 32]%N
  else if (c =? 181)%N then [924%N]            (* MICRO SIGN -> GREEK CAPITAL MU *)
  else if (c =? 223)%N then [83%N; 83%N]       (* SHARP S -> SS *)
  else if in_range 224 246 c || in_range 248 254 c then [c - 32]%N
  else if (c =? 255)%N then [376%N]            (* y DIAERESIS -> capital, U+0178 *)
  else [c].

Definition latin1 : CharDb :=
  {| chr_isspace := latin1_isspace;
     chr_isalpha := latin1_isalpha;
     chr_upper := latin1_upper |}.

(** ** JSON values, exceptions and results *)

#[local] Set Warnings "-register-all".

(** What [Response.json()] returns: JSON objects become dicts, so an object
    is a finite map from member names to values. *)
Inductive json :=
| JNull
| JBool (b : bool)
| JInt (n : Z)
| JFloat (x : float)
| JStr (s : pystr)
| JList (l : list json)
| JObj (m : gmap pystr json).

(** The texts of the [ValueError]s, kept as data: the ones the program
    raises itself and the ones raised by the builtins it calls. *)
Inductive message :=
| InvalidCurrencyCode (ccy : pystr)
| NoRateReturned (base target : pystr) (data : json)
| TimeseriesFailed (data : json)
| NoHistoricalRates
| HistoryDaysTooSmall
| BadFloatLiteral (s : pystr)
| BadIntLiteral (s : pystr)
| BadIsoformat (s : pystr).

(** Why a request failed; each is a [requests.exceptions.RequestException]. *)
Inductive net_failure :=
| Transport                 (* connection error or timeout in [requests.get] *)
| HttpStatus (code : Z)     (* [raise_for_status] on a 4xx or 5xx answer *)
| BadJson.                  (* [Response.json()] on a body that is not JSON *)

Inductive exn :=
| RequestException (f : net_failure)
| ValueError (m : message)
| TypeError
| AttributeError
| KeyError
| OverflowError
| ZeroDivisionError.

Definition is_request_exception (e : exn) : bool :=
  match e with RequestException _ => true | _ => false end.

Inductive result (A : Type) :=
| Ok (a : A)
| Raise (e : exn).
Arguments Ok {A} a.
Arguments Raise {A} e.

Definition is_ok {A} (r : result A) : bool :=
  match r with Ok _ => true | Raise _ => false end.

(** ** Floats and integers *)

(** [float(n)] for an [int]: round to nearest even, [OverflowError] beyond
    the largest finite double. *)
Definition float_of_int (n : Z) : result float :=
  let x := SF2Prim (binary_normalize prec emax n 0 false) in
  if is_infinity x then Raise OverflowError else Ok x.

(** [x != 0] for a float [x]: false on both zeros, true on NaN. *)
Definition float_ne_zero (x : float) : bool := negb (PrimFloat.eqb x 0).

(** [x / y] on floats. *)
Definition float_truediv (x y : float) : result float :=
  if PrimFloat.eqb y 0 then Raise ZeroDivisionError else Ok (PrimFloat.div x y).

(** Neither infinite nor NaN. *)
Definition float_is_finite (x : float) : bool :=
  match Prim2SF x with
  | S754_finite _ _ _ | S754_zero _ => true
  | _ => false
  end.

(** [x / n] for a float and an [int]. *)
Definition float_div_int (x : float) (n : Z) : result float :=
  if (n =? 0)%Z then Raise ZeroDivisionError
  else match float_of_int n with
       | Ok d => Ok (PrimFloat.div x d)
       | Raise e => Raise e
       end.

(** Decimal digits, most significant first, padded with zeros to [width]. *)
Fixpoint digits_padded (width : nat) (n : Z) : pystr :=
  match width with
  | O => []
  | S w => digits_padded w (n / 10) ++ [Z.to_N (48 + n mod 10)]
  end.

Fixpoint digits_fuel (fuel : nat) (n : Z) : pystr :=
  match fuel with
  | O => []
  | S f => (if n <? 10 then [] else digits_fuel f (n / 10)) ++ [Z.to_N (48 + n mod 10)]
  end.

(** [str(n)] for an [int]. *)
Definition str_of_int (n : Z) : pystr :=
  if n <? 0 then 45%N :: digits_fuel (S (Z.to_nat (Z.log2 (- n)))) (- n)
  else digits_fuel (S (Z.to_nat (Z.log2 n))) n.

(** Round [a * 2^e] to the nearest integer, ties to even. *)
Definition round_half_even (a e : Z) : Z :=
  if 0 <=? e then a * 2 ^ e
  else
    let d := 2 ^ (- e) in
    let q := a / d in
    let r := a mod d in
    if (d <? 2 * r) || ((d =? 2 * r) && Z.odd q) then q + 1 else q.

(** [format(x, ".<n>f")]: the exact value of [x], correctly rounded to [n]
    decimals. *)
Definition format_fixed (n : nat) (x : float) : pystr :=
  let sign (s : bool) : pystr := if s then [45%N] else [] in
  let body (q : Z) : pystr :=
    str_of_int (q / 10 ^ Z.of_nat n)
    ++ match n with
       | O => []
       | _ => 46%N :: digits_padded n (q mod 10 ^ Z.of_nat n)
       end in
  match Prim2SF x with
  | S754_nan => [110; 97; 110]%N
  | S754_infinity s => sign s ++ [105; 110; 102]%N
  | S754_zero s => sign s ++ body 0
  | S754_finite s m e => sign s ++ body (round_half_even (Z.pos m * 10 ^ Z.of_nat n) e)
  end.

(** ** Calendar dates ([datetime.date]) *)

Module Date.

Record t := mk { year : Z; month : Z; day : Z }.

Definition is_leap (y : Z) : bool :=
  (y mod 4 =? 0) && (negb (y mod 100 =? 0) || (y mod 400 =? 0)).

Definition days_before_year (y : Z) : Z :=
  let p := y - 1 in p * 365 + p / 4 - p / 100 + p / 400.

Definition days_in_month (y m : Z) : Z :=
  if m =? 2 then (if is_leap y then 29 else 28)
  else if (m =? 4) || (m =? 6) || (m =? 9) || (m =? 11) then 30 else 31.

(** Days of a common year before the first of month [m]. *)
Definition days_before_month_tbl (m : Z) : Z :=
  nth (Z.to_nat m) [0; 0; 31; 59; 90; 120; 151; 181; 212; 243; 273; 304; 334] 0.

Definition days_before_month (y m : Z) : Z :=
  days_before_month_tbl m + (if (2 <? m) && is_leap y then 1 else 0).

Definition valid (d : t) : bool :=
  (1 <=? year d) && (year d <=? 9999) && (1 <=? month d) && (month d <=? 12)
  && (1 <=? day d) && (day d <=? days_in_month (year d) (month d)).

(** [d.toordinal()]: 1 is 0001-01-01. *)
Definition toordinal (d : t) : Z :=
  days_before_year (year d) + days_before_month (year d) (month d) + day d.

Definition max_ordinal : Z := 3652059.   (* 9999-12-31 *)

(** [date.fromordinal(n)], CPython's [_ord2ymd]. *)
Definition fromordinal (n : Z) : t :=
  let n := n - 1 in
  let n400 := n / 146097 in let n := n mod 146097 in
  let n100 := n / 36524 in let n := n mod 36524 in
  let n4 := n / 1461 in let n := n mod 1461 in
  let n1 := n / 365 in let n := n mod 365 in
  let y := n400 * 400 + 1 + n100 * 100 + n4 * 4 + n1 in
  if (n1 =? 4) || (n100 =? 4) then mk (y - 1) 12 31
  else
    let leap := (n1 =? 3) && (negb (n4 =? 24) || (n100 =? 3)) in
    let m := Z.shiftr (n + 50) 5 in
    let preceding := days_before_month_tbl m + (if (2 <? m) && leap then 1 else 0) in
    if n <? preceding then
      let m' := m - 1 in
      let preceding' :=
        preceding - (days_in_month 1 m' + (if (m' =? 2) && leap then 1 else 0)) in
      mk y m' (n - preceding' + 1)
    else mk y m (n - preceding + 1).

(** [d - timedelta(days=n)]: [OverflowError] when the [timedelta] or the
    resulting date is out of range. *)
Definition sub_days (d : t) (n : Z) : result t :=
  if 999999999 <? Z.abs n then Raise OverflowError
  else
    let o := toordinal d - n in
    if (o <? 1) || (max_ordinal <? o) then Raise OverflowError
    else Ok (fromordinal o).

(** [d.isoformat()]: [YYYY-MM-DD]. *)
Definition isoformat (d : t) : pystr :=
  digits_padded 4 (year d) ++ [45%N] ++ digits_padded 2 (month d)
  ++ [45%N] ++ digits_padded 2 (day d).

(** Calendar order. *)
Definition ltb (a b : t) : bool :=
  (year a <? year b)
  || ((year a =? year b)
      && ((month a <? month b) || ((month a =? month b) && (day a <? day b)))).

End Date.

(** ** Builtins that are not modelled structurally

    The parsers and the float summation are taken as an interface; every
    statement below holds for any implementation of it. *)
Class Runtime := {
  parse_float : pystr -> option float;      (* [float(s)]; [None] is ValueError *)
  parse_int : pystr -> option Z;            (* [int(s)]; [None] is ValueError *)
  fsum : list float -> float;               (* [sum(xs)] on a non-empty list of floats *)
  fromisoformat_ok : pystr -> bool          (* [datetime.fromisoformat(s)] succeeds *)
}.

(** ** Operations on JSON values *)

Definition is_str (s : pystr) (v : json) : bool :=
  match v with JStr s' => bool_decide (s = s') | _ => false end.

(** [key in container] for a string [key]. *)
Definition py_in (key : pystr) (container : json) : result bool :=
  match container with
  | JObj m => Ok (match m !! key with Some _ => true | None => false end)
  | JList l => Ok (existsb (is_str key) l)
  | JStr s => Ok (str_contains key s)
  | _ => Raise TypeError
  end.

(** [container[key]] for a string [key]. *)
Definition subscript (container : json) (key : pystr) : result json :=
  match container with
  | JObj m => match m !! key with Some v => Ok v | None => Raise KeyError end
  | _ => Raise TypeError
  end.

(** [obj.get(key, dflt)]; only dicts have [get]. *)
Definition dict_get (obj : json) (key : pystr) (dflt : json) : result json :=
  match obj with
  | JObj m => Ok (default dflt (m !! key))
  | _ => Raise AttributeError
  end.

(** [obj.keys()], in no particular order; only dicts have [keys]. *)
Definition dict_keys (obj : json) : result (list pystr) :=
  match obj with
  | JObj m => Ok (map fst (map_to_list m))
  | _ => Raise AttributeError
  end.

(** [sorted(keys)] on strings. *)
Definition sorted (keys : list pystr) : list pystr :=
  merge_sort (fun a b => Is_true (str_leb a b)) keys.

(** [float(v)] for a value read from JSON. *)
Definition py_float `{Runtime} (v : json) : result float :=
  match v with
  | JFloat x => Ok x
  | JInt n => float_of_int n
  | JBool b => Ok (if b then 1 else 0)%float
  | JStr s => match parse_float s with
              | Some x => Ok x
              | None => Raise (ValueError (BadFloatLiteral s))
              end
  | JNull | JList _ | JObj _ => Raise TypeError
  end.

(** An insertion-ordered [dict] from [str] to [float]. *)
Definition series := list (pystr * float).

(** [d[k] = v]: overwrite in place, or append a new entry. *)
Fixpoint dict_set (d : series) (k : pystr) (v : float) : series :=
  match d with
  | [] => [(k, v)]
  | (k', v') :: d' =>
      if bool_decide (k' = k) then (k, v) :: d' else (k', v') :: dict_set d' k v
  end.

(** ** The world the program runs in *)

Definition API_BASE : pystr := lit "https://api.frankfurter.app".

Inductive param :=
| PFloat (x : float)
| PStr (s : pystr).

Record request := {
  req_url : pystr;
  req_params : list (string * param);
  req_timeout : Z
}.

Inductive http_outcome :=
| Unreachable                                   (* [requests.get] raised *)
| Responded (status : Z) (body : option json).  (* [None]: the body is not JSON *)

Inductive dialog :=
| NetworkErrorBox (e : exn)     (* title "Network Error" *)
| ErrorBox (e : exn).           (* title "Error", text [str(e)] *)

Inductive figure :=
| RateHistory (points : series) (base target : pystr)
| TodayVsAvg (today_rate avg_rate : float) (base target : pystr)
| AmountComparison (original converted : float) (base target : pystr).

Record World := {
  (* surroundings *)
  server : list request -> request -> http_outcome;  (* answer, given the earlier requests *)
  clock : nat -> Date.t;                             (* the n-th reading of [date.today()] *)
  (* what the run has done to them *)
  sent : list request;                               (* requests issued, oldest first *)
  clock_reads : nat;
  (* the form *)
  amount_var : pystr;
  base_var : pystr;
  target_var : pystr;
  days_var : pystr;
  output : pystr;                                    (* contents of the text area *)
  dialogs : list dialog;                             (* error boxes shown, oldest first *)
  figures : list figure;                             (* pyplot figures created *)
  shows : nat                                        (* calls of [plt.show()] *)
}.

Definition with_net (w : World) (s : list request) : World :=
  {| server := server w; clock := clock w; sent := s; clock_reads := clock_reads w;
     amount_var := amount_var w; base_var := base_var w; target_var := target_var w;
     days_var := days_var w; output := output w; dialogs := dialogs w;
     figures := figures w; shows := shows w |}.

Definition with_clock_reads (w : World) (n : nat) : World :=
  {| server := server w; clock := clock w; sent := sent w; clock_reads := n;
     amount_var := amount_var w; base_var := base_var w; target_var := target_var w;
     days_var := days_var w; output := output w; dialogs := dialogs w;
     figures := figures w; shows := shows w |}.

Definition with_output (w : World) (o : pystr) : World :=
  {| server := server w; clock := clock w; sent := sent w; clock_reads := clock_reads w;
     amount_var := amount_var w; base_var := base_var w; target_var := target_var w;
     days_var := days_var w; output := o; dialogs := dialogs w;
     figures := figures w; shows := shows w |}.

Definition with_dialogs (w : World) (d : list dialog) : World :=
  {| server := server w; clock := clock w; sent := sent w; clock_reads := clock_reads w;
     amount_var := amount_var w; base_var := base_var w; target_var := target_var w;
     days_var := days_var w; output := output w; dialogs := d;
     figures := figures w; shows := shows w |}.

Definition with_figures (w : World) (f : list figure) : World :=
  {| server := server w; clock := clock w; sent := sent w; clock_reads := clock_reads w;
     amount_var := amount_var w; base_var := base_var w; target_var := target_var w;
     days_var := days_var w; output := output w; dialogs := dialogs w;
     figures := f; shows := shows w |}.

Definition with_shows (w : World) (n : nat) : World :=
  {| server := server w; clock := clock w; sent := sent w; clock_reads := clock_reads w;
     amount_var := amount_var w; base_var := base_var w; target_var := target_var w;
     days_var := days_var w; output := output w; dialogs := dialogs w;
     figures := figures w; shows := n |}.

(** ** Computations: state passing with exceptions *)

Definition M (A : Type) : Type := World -> result A * World.

Definition ret {A} (a : A) : M A := fun w => (Ok a, w).

Definition bind {A B} (m : M A) (k : A -> M B) : M B :=
  fun w => match m w with
           | (Ok a, w') => k a w'
           | (Raise e, w') => (Raise e, w')
           end.

Definition raise {A} (e : exn) : M A := fun w => (Raise e, w).

Definition lift {A} (r : result A) : M A := fun w => (r, w).

Declare Scope prog_scope.
Delimit Scope prog_scope with prog.
Notation "x <- m ;; k" := (bind m (fun x => k))
  (at level 100, m at next level, right associativity) : prog_scope.
Notation "m ;; k" := (bind m (fun _ => k))
  (at level 100, right associativity) : prog_scope.
Local Open Scope prog_scope.

(** [dt.date.today()] *)
Definition today : M Date.t :=
  fun w => (Ok (clock w (clock_reads w)), with_clock_reads w (S (clock_reads w))).

(** [requests.get(url, params=..., timeout=...)]: the request goes out, then
    either a response comes back or the call raises. *)
Definition requests_get (rq : request) : M (Z * option json) :=
  fun w =>
    let w' := with_net w (sent w ++ [rq]) in
    match server w (sent w) rq with
    | Unreachable => (Raise (RequestException Transport), w')
    | Responded status body => (Ok (status, body), w')
    end.

(** [r.raise_for_status()] *)
Definition raise_for_status (r : Z * option json) : M unit :=
  if (400 <=? fst r) && (fst r <? 600)
  then raise (RequestException (HttpStatus (fst r)))
  else ret tt.

(** [r.json()]; the exception is a [RequestException] since requests 2.27. *)
Definition response_json (r : Z * option json) : M json :=
  match snd r with
  | Some data => ret data
  | None => raise (RequestException BadJson)
  end.

(** ** Core functions *)

(** The request of [fetch_conversion]. *)
Definition latest_request (amount : float) (base target : pystr) : request :=
  {| req_url := API_BASE ++ lit "/latest";
     req_params := [("amount"%string, PFloat amount);
                    ("from"%string, PStr base);
                    ("to"%string, PStr target)];
     req_timeout := 15 |}.

(** The request of [fetch_timeseries]. *)
Definition range_request (start stop : Date.t) (base target : pystr) : request :=
  {| req_url := API_BASE ++ lit "/" ++ Date.isoformat start ++ lit ".."
                ++ Date.isoformat stop;
     req_params := [("from"%string, PStr base); ("to"%string, PStr target)];
     req_timeout := 20 |}.

Section Program.
Context {db : CharDb} {rt : Runtime}.

(** [fetch_conversion(amount, base, target)]: the converted amount and the
    unit rate, from the [/latest] endpoint. *)
Definition fetch_conversion (amount : float) (base target : pystr) : M (float * float) :=
  if bool_decide (base = target) then ret (amount, 1%float)
  else
    r <- requests_get (latest_request amount base target) ;;
    raise_for_status r ;;
    data <- response_json r ;;
    rates <- lift (dict_get data (lit "rates") (JObj ∅)) ;;
    found <- lift (py_in target rates) ;;
    if negb found then raise (ValueError (NoRateReturned base target data))
    else
      v <- lift (subscript rates target) ;;
      converted <- lift (py_float v) ;;
      rate <- (if float_ne_zero amount then lift (float_truediv converted amount)
               else ret nan) ;;
      ret (converted, rate).

(** The body of the loop of [fetch_timeseries]: the rate of one day for
    [target], or [None] when its payload has none. *)
Definition day_value (table : json) (target day : pystr) : result (option float) :=
  match subscript table day with
  | Raise e => Raise e
  | Ok payload =>
      match dict_get payload target JNull with
      | Raise e => Raise e
      | Ok JNull => Ok None
      | Ok val =>
          match py_float val with
          | Raise e => Raise e
          | Ok x => Ok (Some x)
          end
      end
  end.

(** The loop of [fetch_timeseries] over the sorted days: keep the days
    whose payload has a value for [target]. *)
Fixpoint collect_rates (table : json) (target : pystr) (days : list pystr)
    (rates : series) : result series :=
  match days with
  | [] => Ok rates
  | day :: rest =>
      match day_value table target day with
      | Raise e => Raise e
      | Ok None => collect_rates table target rest rates
      | Ok (Some x) => collect_rates table target rest (dict_set rates day x)
      end
  end.

(** [fetch_timeseries(base, target, days)]: the rates of the last [days]
    calendar days, by ISO date. *)
Definition fetch_timeseries (base target : pystr) (days : Z) : M series :=
  stop <- today ;;
  start <- lift (Date.sub_days stop days) ;;
  r <- requests_get (range_request start stop base target) ;;
  raise_for_status r ;;
  data <- response_json r ;;
  has_rates <- lift (py_in (lit "rates") data) ;;
  if negb has_rates then raise (ValueError (TimeseriesFailed data))
  else
    table <- lift (subscript data (lit "rates")) ;;
    keys <- lift (dict_keys table) ;;
    rates <- lift (collect_rates table target (sorted keys) []) ;;
    match rates with
    | [] => raise (ValueError NoHistoricalRates)
    | _ => ret rates
    end.

(** ** Plotting helpers *)

Definition add_figure (f : figure) : M unit :=
  fun w => (Ok tt, with_figures w (figures w ++ [f])).

(** [plot_rate_history]: every key is parsed as a date before the figure
    is made, so a key that is not an ISO date stops it. *)
Definition plot_rate_history (rates : series) (base target : pystr) : M unit :=
  match List.find (fun d => negb (fromisoformat_ok d)) (map fst rates) with
  | Some bad => raise (ValueError (BadIsoformat bad))
  | None => add_figure (RateHistory rates base target)
  end.

Definition plot_today_vs_avg (today_rate avg_rate : float) (base target : pystr) : M unit :=
  add_figure (TodayVsAvg today_rate avg_rate base target).

Definition plot_amount_comparison (original_amount converted_amount : float)
    (base target : pystr) : M unit :=
  add_figure (AmountComparison original_amount converted_amount base target).

Definition plt_show : M unit :=
  fun w => (Ok tt, with_shows w (S (shows w))).

(** ** Utilities *)

Definition normalize_ccy (ccy : pystr) : result pystr :=
  let c := upper (strip ccy) in
  if negb (length c =? 3)%nat || negb (isalpha c)
  then Raise (ValueError (InvalidCurrencyCode ccy))
  else Ok c.

(** ** The form *)

(** [self.clear_output()] *)
Definition clear_output : M unit :=
  fun w => (Ok tt, with_output w []).

(** [self._write_line(text)] *)
Definition write_line (text : pystr) : M unit :=
  fun w => (Ok tt, with_output w (output w ++ text ++ [10%N])).

Definition showerror (d : dialog) (w : World) : World :=
  with_dialogs w (dialogs w ++ [d]).

(** [float(s)] and [int(s)] on the text of an entry. *)
Definition float_of_str (s : pystr) : result float :=
  match parse_float s with
  | Some x => Ok x
  | None => Raise (ValueError (BadFloatLiteral s))
  end.

Definition int_of_str (s : pystr) : result Z :=
  match parse_int s with
  | Some n => Ok n
  | None => Raise (ValueError (BadIntLiteral s))
  end.

Definition rule : pystr := repeat 45%N 50.      (* ["-" * 50] *)

(** Whether the last day of the series is today. *)
Definition is_today_included (rates : series) : M bool :=
  match last (map fst rates) with
  | Some last_day =>
      d <- today ;;
      ret (bool_decide (last_day = Date.isoformat d))
  | None => ret false
  end.

(** The average of the period, leaving out the last day when it is today. *)
Definition period_average (rates : series) : M float :=
  is_today <- is_today_included rates ;;
  let values := map snd rates in
  if is_today && (1 <? length values)%nat
  then lift (float_div_int (fsum (removelast values)) (Z.of_nat (length values) - 1))
  else lift (float_div_int (fsum values) (Z.of_nat (length values))).

(** The first lines of the [try] block: the four entries, read and checked
    in this order. *)
Definition read_inputs (w : World) : result (float * pystr * pystr * Z) :=
  match float_of_str (amount_var w) with
  | Raise e => Raise e
  | Ok amount =>
      match normalize_ccy (base_var w) with
      | Raise e => Raise e
      | Ok base =>
          match normalize_ccy (target_var w) with
          | Raise e => Raise e
          | Ok target =>
              let days_str := strip (days_var w) in
              match (match days_str with
                     | [] => Ok 30
                     | _ => int_of_str days_str
                     end) with
              | Raise e => Raise e
              | Ok days =>
                  if days <? 1 then Raise (ValueError HistoryDaysTooSmall)
                  else Ok (amount, base, target, days)
              end
          end
      end
  end.

(** The lines written once the conversion is known. *)
Definition summary (amount : float) (base target : pystr) (converted today_rate : float)
    : list pystr :=
  [ rule;
    lit "Amount       : " ++ format_fixed 4 amount ++ lit " " ++ base;
    lit "Current rate : 1 " ++ base ++ lit " = " ++ format_fixed 6 today_rate
      ++ lit " " ++ target;
    lit "Converted    : " ++ format_fixed 4 converted ++ lit " " ++ target;
    rule ].

Fixpoint write_lines (lines : list pystr) : M unit :=
  match lines with
  | [] => ret tt
  | l :: rest => write_line l ;; write_lines rest
  end.

(** The rest of the [try] block, from the history request on. *)
Definition history_and_plots (amount : float) (base target : pystr) (days : Z)
    (converted today_rate : float) : M unit :=
  rates <- fetch_timeseries base target days ;;
  avg_rate <- period_average rates ;;
  write_line (lit "Avg rate (" ++ str_of_int days ++ lit "d window): "
              ++ format_fixed 6 avg_rate ++ lit " " ++ target ++ lit "/" ++ base) ;;
  write_line (lit "Close the charts to continue...") ;;
  plot_rate_history rates base target ;;
  plot_today_vs_avg today_rate avg_rate base target ;;
  plot_amount_comparison amount converted base target ;;
  plt_show.

(** The body of the [try] block of [on_convert]. *)
Definition convert_and_plot : M unit :=
  fun w0 =>
    (inputs <- lift (read_inputs w0) ;;
     let '(amount, base, target, days) := inputs in
     p <- fetch_conversion amount base target ;;
     let '(converted, today_rate) := p in
     clear_output ;;
     write_lines (summary amount base target converted today_rate) ;;
     history_and_plots amount base target days converted today_rate) w0.

(** [CurrencyApp.on_convert]: run the pipeline; an exception ends it and is
    reported in an error box. *)
Definition on_convert (w : World) : World :=
  match convert_and_plot w with
  | (Ok _, w') => w'
  | (Raise e, w') =>
      if is_request_exception e then showerror (NetworkErrorBox e) w'
      else showerror (ErrorBox e) w'
  end.
End Program.


(** ** A runtime and a world for running examples

    [demo_runtime] reads integer literals, [inf] and [nan] only, sums from
    left to right (as CPython does before 3.12) and takes only [YYYY-MM-DD]
    for an ISO date. *)

Definition digit_value (c : codepoint) : option Z :=
  if in_range 48 57 c then Some (Z.of_N c - 48) else None.

Fixpoint read_digits (acc : Z) (s : pystr) : option Z :=
  match s with
  | [] => Some acc
  | c :: r => match digit_value c with
              | Some d => read_digits (acc * 10 + d) r
              | None => None
              end
  end.

Definition read_unsigned (s : pystr) : option Z :=
  match s with
  | [] => None
  | _ => read_digits 0 s
  end.

Definition demo_parse_int (s : pystr) : option Z :=
  match strip (db := latin1) s with
  | 45%N :: r => Z.opp <$> read_unsigned r
  | 43%N :: r => read_unsigned r
  | r => read_unsigned r
  end.

Definition float_of_nat_literal (s : pystr) : option float :=
  if bool_decide (s = lit "inf") then Some infinity
  else if bool_decide (s = lit "nan") then Some nan
  else (fun n => SF2Prim (binary_normalize prec emax n 0 false)) <$> read_unsigned s.

Definition demo_parse_float (s : pystr) : option float :=
  match strip (db := latin1) s with
  | 45%N :: r => PrimFloat.opp <$> float_of_nat_literal r
  | 43%N :: r => float_of_nat_literal r
  | r => float_of_nat_literal r
  end.

Definition demo_fromisoformat_ok (s : pystr) : bool :=
  match s with
  | [y1; y2; y3; y4; 45%N; m1; m2; 45%N; d1; d2] =>
      match read_digits 0 [y1; y2; y3; y4], read_digits 0 [m1; m2], read_digits 0 [d1; d2] with
      | Some y, Some m, Some d => Date.valid (Date.mk y m d)
      | _, _, _ => false
      end
  | _ => false
  end.

Definition demo_runtime : Runtime :=
  {| parse_float := demo_parse_float;
     parse_int := demo_parse_int;
     fsum := fun xs => fold_left PrimFloat.add xs 0%float;
     fromisoformat_ok := demo_fromisoformat_ok |}.

(** A form as the user may have filled it, before anything has run. *)
Definition form (server : list request -> request -> http_outcome) (today : Date.t)
    (amount base target days : string) (shown : pystr) : World :=
  {| server := server; clock := fun _ => today; sent := []; clock_reads := 0;
     amount_var := lit amount; base_var := lit base; target_var := lit target;
     days_var := lit days; output := shown; dialogs := []; figures := []; shows := 0 |}.

Definition USD : pystr := lit "USD".
Definition INR : pystr := lit "INR".

Definition demo_server (latest : http_outcome) (history : http_outcome)
    : list request -> request -> http_outcome :=
  fun _ rq => if bool_decide (req_url rq = API_BASE ++ lit "/latest")
              then latest else history.

(** * Vocabulary of the properties *)

(** [a < b] and [a <= b] on strings, as propositions. *)
Definition str_lt (a b : pystr) : Prop := str_ltb a b = true.

Definition str_le (a b : pystr) : Prop := Is_true (str_leb a b).

(** The world after the history request has gone out. *)
Definition after_history_request (w : World) (rq : request) : World :=
  with_net (with_clock_reads w (S (clock_reads w))) (sent w ++ [rq]).

(** The fields fit the four, two and two digits of [isoformat]. *)
Definition in_iso_range (d : Date.t) : Prop :=
  0 <= Date.year d <= 9999 /\ 0 <= Date.month d <= 99 /\ 0 <= Date.day d <= 99.

(** Keys that are ISO texts of dates come in the order of those dates. *)
Definition dates_ascending (keys : list pystr) : Prop :=
  forall (i j : nat) (a b : Date.t),
    (i < j)%nat ->
    keys !! i = Some (Date.isoformat a) -> keys !! j = Some (Date.isoformat b) ->
    Date.valid a = true -> Date.valid b = true ->
    Date.ltb a b = true.

(** The box that reports an exception. *)
Definition error_box (e : exn) : dialog :=
  if is_request_exception e then NetworkErrorBox e else ErrorBox e.

Section Vocabulary.
Context {db : CharDb} {rt : Runtime}.

(** What a call with two different codes returns, case by case. *)
Inductive conversion_outcome (amount : float) (base target : pystr) (w : World)
  : result (float * float) -> Prop :=
| conv_failed (e : exn) :
    e <> ZeroDivisionError ->
    conversion_outcome amount base target w (Raise e)
| conv_done (status : Z) (data : json) (rates v : json) (converted : float) :
    server w (sent w) (latest_request amount base target) = Responded status (Some data) ->
    (400 <=? status) && (status <? 600) = false ->
    dict_get data (lit "rates") (JObj ∅) = Ok rates ->
    py_in target rates = Ok true ->
    subscript rates target = Ok v ->
    py_float v = Ok converted ->
    conversion_outcome amount base target w
      (Ok (converted,
           if float_ne_zero amount then PrimFloat.div converted amount else nan)).

(** The days the loop keeps, with their rates. *)
Definition kept (table : json) (target : pystr) (days : list pystr) : series :=
  omap (fun day => match day_value table target day with
                   | Ok (Some x) => Some (day, x)
                   | _ => None
                   end) days.

(** The arithmetic mean of a list of floats. *)
Definition arithmetic_mean (xs : list float) : result float :=
  float_div_int (fsum xs) (Z.of_nat (length xs)).

(** The average as the specification words it: the mean of all values but
    the last when the last date is today's and there is more than one
    entry, the mean of all values otherwise. *)
Definition mean_excluding_today (today : Date.t) (rates : series)
    : result float :=
  if bool_decide (last (map fst rates) = Some (Date.isoformat today)
                  /\ (1 < length rates)%nat)
  then arithmetic_mean (removelast (map snd rates))
  else arithmetic_mean (map snd rates).

(** A run fails early when the inputs are refused or the conversion request
    fails. *)
Inductive fails_early (w : World) : exn -> Prop :=
| fails_in_validation (e : exn) :
    read_inputs w = Raise e -> fails_early w e
| fails_in_conversion (amount : float) (base target : pystr) (days : Z)
    (e : exn) (w' : World) :
    read_inputs w = Ok (amount, base, target, days) ->
    fetch_conversion amount base target w = (Raise e, w') ->
    fails_early w e.

(** The days entry is neither blank nor a positive integer. *)
Definition days_entry_invalid (w : World) : Prop :=
  strip (days_var w) <> []
  /\ match parse_int (strip (days_var w)) with
     | Some n => n < 1
     | None => True
     end.

(** One of the four entries does not pass validation. *)
Definition invalid_input (w : World) : Prop :=
  parse_float (amount_var w) = None
  \/ is_ok (normalize_ccy (base_var w)) = false
  \/ is_ok (normalize_ccy (target_var w)) = false
  \/ days_entry_invalid w.

End Vocabulary.

(** * Worlds and answers for the examples *)

(** The body of a [/latest] answer with one rate. *)
Definition quote_rates (target : pystr) (converted : json) : gmap pystr json :=
  {[ target := converted ]}.

Definition quote (base target : pystr) (converted : json) : gmap pystr json :=
  list_to_map [(lit "base", JStr base); (lit "rates", JObj (quote_rates target converted))].

Definition on_2025_11_10 : Date.t := Date.mk 2025 11 10.

(** The service quotes [converted] for INR to USD and has no history. *)
Definition quoting (converted : float) : list request -> request -> http_outcome :=
  demo_server (Responded 200 (Some (JObj (quote INR USD (JFloat converted))))) Unreachable.

Definition offline : list request -> request -> http_outcome :=
  demo_server Unreachable Unreachable.

(** The body of a history answer: one payload per day. *)
Definition history (days : list (string * json)) : gmap pystr json :=
  {[ lit "rates" := JObj (list_to_map (map (fun d => (lit (fst d), snd d)) days)) ]}.

(** A payload with one rate. *)
Definition only (code : pystr) (v : json) : json := JObj {[ code := v ]}.

(** The service quotes [converted] for INR to USD and answers the history
    request with [days]. *)
Definition serving (converted : float) (days : list (string * json))
    : list request -> request -> http_outcome :=
  demo_server (Responded 200 (Some (JObj (quote INR USD (JFloat converted)))))
              (Responded 200 (Some (JObj (history days)))).

Definition three_days : list (string * json) :=
  [("2025-11-10"%string, only USD (JInt 99)); ("2025-11-08"%string, only USD (JInt 10));
   ("2025-11-09"%string, only USD (JInt 20))].

Definition two_days : list (string * json) :=
  [("2025-11-08"%string, only USD (JInt 10)); ("2025-11-09"%string, only USD (JInt 20))].

(** Three days of which the middle one has no rate for USD. *)
Definition gap_days : list (string * json) :=
  [("2025-11-10"%string, only USD (JInt 99)); ("2025-11-08"%string, only USD (JInt 10));
   ("2025-11-09"%string, only (lit "EUR") (JInt 20))].

(** Two days without a rate for USD. *)
Definition other_days : list (string * json) :=
  [("2025-11-08"%string, only (lit "EUR") (JInt 10));
   ("2025-11-09"%string, only (lit "EUR") (JInt 20))].

Definition history_request : request :=
  range_request (Date.mk 2025 10 11) on_2025_11_10 INR USD.

Definition other_table : gmap pystr json :=
  list_to_map (map (fun d => (lit (fst d), snd d)) other_days).

Definition rates_of_three_days : series :=
  [(lit "2025-11-08", 10%float); (lit "2025-11-09", 20%float); (lit "2025-11-10", 99%float)].

Definition rates_of_two_days : series :=
  [(lit "2025-11-08", 10%float); (lit "2025-11-09", 20%float)].

Definition text_of (lines : list string) : pystr :=
  flat_map (fun l => lit l ++ [10%N]) lines.

(** * Vocabulary of the further properties *)

(** What writing [lines] one by one adds to the text area. *)
Definition lines_text (lines : list pystr) : pystr :=
  flat_map (fun l => l ++ [10%N]) lines.

(** The two lines written once the average is known. *)
Definition average_lines (days : Z) (avg_rate : float) (base target : pystr)
    : list pystr :=
  [ lit "Avg rate (" ++ str_of_int days ++ lit "d window): "
      ++ format_fixed 6 avg_rate ++ lit " " ++ target ++ lit "/" ++ base;
    lit "Close the charts to continue..." ].

(** The three figures of a run, in the order they are made. *)
Definition charts (amount : float) (base target : pystr) (converted today_rate : float)
    (rates : series) (avg_rate : float) : list figure :=
  [ RateHistory rates base target;
    TodayVsAvg today_rate avg_rate base target;
    AmountComparison amount converted base target ].

(** The world once the conversion summary has replaced the text. *)
Definition after_summary (w : World) (amount : float) (base target : pystr)
    (converted today_rate : float) : World :=
  with_output w (lines_text (summary amount base target converted today_rate)).

(** The world once the two lines of the average have been added. *)
Definition after_average (w : World) (days : Z) (avg_rate : float) (base target : pystr)
    : World :=
  with_output w (output w ++ lines_text (average_lines days avg_rate base target)).

(** The world once the figures have been made and shown. *)
Definition after_charts (w : World) (figs : list figure) : World :=
  with_shows (with_figures w (figures w ++ figs)) (S (shows w)).

(** A date moved by a number of years. *)
Definition shift_years (years : Z) (d : Date.t) : Date.t :=
  Date.mk (Date.year d + years) (Date.month d) (Date.day d).

(** The check made on each day of the first 400 years: the ordinal comes
    back, and the fields are those of a date of the calendar. *)
Definition cycle_ok (r : Z) : bool :=
  let d := Date.fromordinal (r + 1) in
  (Date.toordinal d =? r + 1)
  && (1 <=? Date.year d) && (Date.year d <=? 400)
  && ((Date.year d <=? 399) || (145730 <? r))
  && (1 <=? Date.month d) && (Date.month d <=? 12)
  && (1 <=? Date.day d) && (Date.day d <=? Date.days_in_month (Date.year d) (Date.month d)).

(** [f] holds on the [n] integers from [start] on. *)
Fixpoint all_from (n : nat) (start : Z) (f : Z -> bool) : bool :=
  match n with
  | O => true
  | S k => f start && all_from k (start + 1) f
  end.

(** Answers for the examples of failures. *)
Definition refusing (status : Z) : list request -> request -> http_outcome :=
  demo_server (Responded status (Some (JObj (quote INR USD (JFloat 0x1.3333333333333p+0)))))
              Unreachable.

Definition quoting_euro : list request -> request -> http_outcome :=
  demo_server (Responded 200 (Some (JObj (quote INR (lit "EUR") (JFloat 1))))) Unreachable.

Definition not_found : gmap pystr json :=
  {[ lit "message" := JStr (lit "not found") ]}.

Definition answering (body : gmap pystr json) : list request -> request -> http_outcome :=
  demo_server Unreachable (Responded 200 (Some (JObj body))).

Definition broken_days : list (string * json) :=
  [("2025-11-08"%string, only USD (JInt 10)); ("2025-11-09"%string, JInt 20)].

Definition broken_table : gmap pystr json :=
  list_to_map (map (fun d => (lit (fst d), snd d)) broken_days).

Definition float_days : list (string * json) :=
  [("2025-11-08"%string, only USD (JFloat 10));
   ("2025-11-09"%string, only (lit "EUR") (JFloat 20))].

Definition float_table : gmap pystr json :=
  list_to_map (map (fun d => (lit (fst d), snd d)) float_days).

Section RunVocabulary.
Context {db : CharDb} {rt : Runtime}.

(** The first key of a series that is not an ISO date, as [plot_rate_history]
    meets it. *)
Definition first_bad_date (rates : series) : option pystr :=
  List.find (fun d => negb (fromisoformat_ok d)) (map fst rates).

(** The ways the [try] block of [on_convert] can end, stage by stage, each
    with the world it leaves. *)
Inductive run_outcome (w : World) : result unit * World -> Prop :=
| run_invalid (e : exn) :
    read_inputs w = Raise e ->
    run_outcome w (Raise e, w)
| run_no_conversion (amount : float) (base target : pystr) (days : Z)
    (e : exn) (w1 : World) :
    read_inputs w = Ok (amount, base, target, days) ->
    fetch_conversion amount base target w = (Raise e, w1) ->
    run_outcome w (Raise e, w1)
| run_no_history (amount : float) (base target : pystr) (days : Z)
    (converted today_rate : float) (w1 : World) (e : exn) (w2 : World) :
    read_inputs w = Ok (amount, base, target, days) ->
    fetch_conversion amount base target w = (Ok (converted, today_rate), w1) ->
    fetch_timeseries base target days
      (after_summary w1 amount base target converted today_rate) = (Raise e, w2) ->
    run_outcome w (Raise e, w2)
| run_no_average (amount : float) (base target : pystr) (days : Z)
    (converted today_rate : float) (w1 : World) (rates : series) (w2 : World)
    (e : exn) (w3 : World) :
    read_inputs w = Ok (amount, base, target, days) ->
    fetch_conversion amount base target w = (Ok (converted, today_rate), w1) ->
    fetch_timeseries base target days
      (after_summary w1 amount base target converted today_rate) = (Ok rates, w2) ->
    period_average rates w2 = (Raise e, w3) ->
    run_outcome w (Raise e, w3)
| run_no_plot (amount : float) (base target : pystr) (days : Z)
    (converted today_rate : float) (w1 : World) (rates : series) (w2 : World)
    (avg_rate : float) (w3 : World) (bad : pystr) :
    read_inputs w = Ok (amount, base, target, days) ->
    fetch_conversion amount base target w = (Ok (converted, today_rate), w1) ->
    fetch_timeseries base target days
      (after_summary w1 amount base target converted today_rate) = (Ok rates, w2) ->
    period_average rates w2 = (Ok avg_rate, w3) ->
    first_bad_date rates = Some bad ->
    run_outcome w (Raise (ValueError (BadIsoformat bad)),
                   after_average w3 days avg_rate base target)
| run_done (amount : float) (base target : pystr) (days : Z)
    (converted today_rate : float) (w1 : World) (rates : series) (w2 : World)
    (avg_rate : float) (w3 : World) :
    read_inputs w = Ok (amount, base, target, days) ->
    fetch_conversion amount base target w = (Ok (converted, today_rate), w1) ->
    fetch_timeseries base target days
      (after_summary w1 amount base target converted today_rate) = (Ok rates, w2) ->
    period_average rates w2 = (Ok avg_rate, w3) ->
    first_bad_date rates = None ->
    run_outcome w (Ok tt,
                   after_charts (after_average w3 days avg_rate base target)
                     (charts amount base target converted today_rate rates avg_rate)).

End RunVocabulary.

(** * Properties *)

(** ** Currency codes *)

Section StrFacts.
Context {db : CharDb}.

Lemma lstrip_split (s : pystr) :
  exists l, s = l ++ lstrip s /\ forallb chr_isspace l = true.
Proof.
  induction s as [|c s IH]; simpl.
  - exists []. split; reflexivity.
  - destruct (chr_isspace c) eqn:Hc.
    + destruct IH as (l & Hs & Hl). exists (c :: l). split.
      * simpl. congruence.
      * simpl. rewrite Hc. exact Hl.
    + exists []. split; reflexivity.
Qed.

Lemma lstrip_head (s : pystr) (c : codepoint) :
  head (lstrip s) = Some c -> chr_isspace c = false.
Proof.
  induction s as [|a s IH]; simpl; [discriminate|].
  destruct (chr_isspace a) eqn:Ha; [exact IH|].
  simpl. intros [= <-]. exact Ha.
Qed.

(** [strip] removes white space, and only white space, from both ends. *)
Lemma strip_split (s : pystr) :
  exists l r, s = l ++ strip s ++ r
              /\ forallb chr_isspace l = true /\ forallb chr_isspace r = true.
Proof.
  unfold strip, rstrip.
  destruct (lstrip_split s) as (l & Hs & Hl).
  destruct (lstrip_split (rev (lstrip s))) as (r & Hr & Hrs).
  exists l, (rev r). repeat split.
  - rewrite <- rev_app_distr, <- Hr, rev_involutive. exact Hs.
  - exact Hl.
  - rewrite forallb_forall in *. intros x Hx. apply Hrs. now apply in_rev.
Qed.

Lemma strip_ends (s : pystr) (c : codepoint) :
  head (strip s) = Some c \/ last (strip s) = Some c -> chr_isspace c = false.
Proof.
  unfold strip, rstrip. intros [H|H].
  - destruct (lstrip_split (rev (lstrip s))) as (r & Hr & Hrs).
    destruct (lstrip (rev (lstrip s))) as [|x t] eqn:Ht; [discriminate|].
    apply (f_equal (@rev _)) in Hr. rewrite rev_involutive, rev_app_distr in Hr.
    apply lstrip_head with (s := s). rewrite Hr.
    destruct (rev (x :: t)) as [|y u] eqn:Hu; [discriminate|].
    simpl in *. exact H.
  - apply lstrip_head with (s := rev (lstrip s)).
    destruct (lstrip (rev (lstrip s))) as [|x t]; [discriminate|].
    simpl in H. rewrite last_snoc in H. exact H.
Qed.

Lemma isalpha_Forall (s : pystr) :
  isalpha s = true <-> s <> [] /\ Forall (fun c => chr_isalpha c = true) s.
Proof.
  destruct s as [|c s].
  - simpl. split; [discriminate | intros [H _]; congruence].
  - unfold isalpha. rewrite forallb_forall, Forall_forall.
    split.
    + intros H. split; [discriminate|]. intros x Hx%list_elem_of_In. auto.
    + intros [_ H] x Hx. apply H. now apply list_elem_of_In.
Qed.

End StrFacts.

(** C9: [normalize_ccy] strips and upper-cases its argument; it returns that
    string when it has exactly three characters, all alphabetic, and raises
    the invalid-code [ValueError] otherwise. With the Latin-1 table,
    ["usd "] gives ["USD"], and ["US"] and ["US1"] are refused. *)
Theorem normalize_ccy_spec {db : CharDb} (ccy : pystr) :
  let c := upper (strip ccy) in
  normalize_ccy ccy =
    (if bool_decide (length c = 3%nat /\ Forall (fun ch => chr_isalpha ch = true) c)
     then Ok c
     else Raise (ValueError (InvalidCurrencyCode ccy)))
  /\ normalize_ccy (db := latin1) (lit "usd ") = Ok (lit "USD")
  /\ normalize_ccy (db := latin1) (lit "US") = Raise (ValueError (InvalidCurrencyCode (lit "US")))
  /\ normalize_ccy (db := latin1) (lit "US1") = Raise (ValueError (InvalidCurrencyCode (lit "US1"))).
Proof.
  simpl. split; [|repeat split; reflexivity].
  unfold normalize_ccy. set (c := upper (strip ccy)).
  destruct (Nat.eqb_spec (length c) 3) as [Hlen|Hlen]; simpl.
  - destruct (isalpha c) eqn:Ha; simpl.
    + apply isalpha_Forall in Ha as [_ Ha].
      rewrite bool_decide_eq_true_2; [reflexivity | split; assumption].
    + rewrite bool_decide_eq_false_2; [reflexivity|].
      intros [_ Hall]. assert (isalpha c = true); [|congruence].
      apply isalpha_Forall. split; [|exact Hall].
      intros ->. discriminate.
  - rewrite bool_decide_eq_false_2; [reflexivity|]. intros [? _]. contradiction.
Qed.

(** C10: the three-letter string U+00E9 U+00FB U+00E0 has no ASCII
    character, yet [normalize_ccy] accepts it and returns its upper-case
    form U+00C9 U+00DB U+00C0, which has no ASCII letter either. *)
Theorem normalize_ccy_accepts_non_ascii :
  let code := [233; 251; 224]%N in
  let code_upper := [201; 219; 192]%N in
  Forall (fun c => (127 < c)%N) code
  /\ Forall (fun c => latin1_isalpha c = true) code
  /\ normalize_ccy (db := latin1) code = Ok code_upper
  /\ Forall (fun c => (127 < c)%N) code_upper.
Proof.
  simpl. repeat split; try reflexivity;
    repeat constructor.
Qed.

(** ** Float division *)

Lemma div_eucl_shiftl_self (m : positive) :
  Z.div_eucl (Z.shiftl (Z.pos m) 53) (Z.pos m) = (2 ^ 53, 0).
Proof.
  rewrite Z.shiftl_mul_pow2 by lia.
  pose proof (Z.div_mul (2 ^ 53) (Z.pos m) ltac:(lia)) as Hq.
  pose proof (Z.mod_mul (2 ^ 53) (Z.pos m) ltac:(lia)) as Hr.
  rewrite (Z.mul_comm (Z.pos m)).
  unfold Z.div, Z.modulo in Hq, Hr.
  destruct (Z.div_eucl (2 ^ 53 * Z.pos m) (Z.pos m)) as [q r].
  congruence.
Qed.

Lemma SFdiv_self (s : bool) (m : positive) (e : Z) :
  SF64div (S754_finite s m e) (S754_finite s m e) = Prim2SF 1.
Proof.
  unfold SF64div, SFdiv, SFdiv_core_binary.
  rewrite (Z.sub_diag e), (Z.sub_diag (Zdigits2 (Z.pos m) + e)).
  change (Z.min (fexp prec emax 0) 0) with (-53).
  change (0 - -53) with 53.
  cbv match. rewrite div_eucl_shiftl_self.
  replace (new_location (Z.pos m) 0) with loc_Exact
    by (unfold new_location, new_location_even, new_location_odd;
        destruct (Z.even (Z.pos m)); reflexivity).
  destruct s; vm_compute; reflexivity.
Qed.

(** A finite, non-zero float divided by itself is exactly [1.0]. *)
Lemma div_self (x : float) :
  float_is_finite x = true -> float_ne_zero x = true -> PrimFloat.div x x = 1%float.
Proof.
  unfold float_is_finite, float_ne_zero. intros Hfin Hnz.
  apply negb_true_iff in Hnz.
  apply Prim2SF_inj. rewrite div_spec.
  rewrite FloatAxioms.eqb_spec in Hnz.
  destruct (Prim2SF x) as [s|s| |s m e]; try discriminate.
  apply SFdiv_self.
Qed.

(** ** [fetch_conversion] *)

Ltac run :=
  repeat (cbn [fst snd] in * ||
          unfold bind, ret, raise, lift, requests_get, raise_for_status,
                 response_json in *).

Section Conversion.
Context {rt : Runtime}.

Lemma fetch_conversion_same (amount : float) (code : pystr) (w : World) :
  fetch_conversion amount code code w = (Ok (amount, 1%float), w).
Proof.
  unfold fetch_conversion. rewrite bool_decide_eq_true_2 by reflexivity. reflexivity.
Qed.

Lemma fetch_conversion_cases (amount : float) (base target : pystr) (w : World) :
  base <> target ->
  conversion_outcome amount base target w (fst (fetch_conversion amount base target w))
  /\ snd (fetch_conversion amount base target w)
     = with_net w (sent w ++ [latest_request amount base target]).
Proof.
  intros Hne. unfold fetch_conversion.
  rewrite bool_decide_eq_false_2 by exact Hne.
  run.
  destruct (server w (sent w) (latest_request amount base target))
    as [|status body] eqn:Hsrv.
  { split; [constructor; discriminate | reflexivity]. }
  run.
  destruct ((400 <=? status) && (status <? 600)) eqn:Hst.
  { split; [constructor; discriminate | reflexivity]. }
  run.
  destruct body as [data|]; run;
    [|split; [constructor; discriminate | reflexivity]].
  destruct (dict_get data (lit "rates") (JObj ∅)) as [rates|e] eqn:Hrates.
  2:{ split; [|reflexivity]. constructor.
      destruct data; simpl in Hrates; congruence. }
  destruct (py_in target rates) as [found|e] eqn:Hin.
  2:{ split; [|reflexivity]. constructor.
      destruct rates; simpl in Hin; congruence. }
  destruct found; simpl;
    [|split; [constructor; discriminate | reflexivity]].
  destruct (subscript rates target) as [v|e] eqn:Hsub.
  2:{ split; [|reflexivity]. constructor.
      destruct rates; simpl in Hsub; try congruence.
      destruct (m !! target); congruence. }
  destruct (py_float v) as [converted|e] eqn:Hfl.
  2:{ split; [|reflexivity]. constructor.
      destruct v; simpl in Hfl; try congruence.
      - unfold float_of_int in Hfl.
        destruct (is_infinity _); congruence.
      - destruct (parse_float s); congruence. }
  unfold float_truediv, float_ne_zero.
  pose proof (conv_done amount base target w status data rates v converted
                Hsrv Hst Hrates Hin Hsub Hfl) as Hdone.
  unfold float_ne_zero in Hdone.
  destruct (PrimFloat.eqb amount 0); simpl in *; split; (exact Hdone || reflexivity).
Qed.

End Conversion.

Section ConversionClaims.
Context {rt : Runtime}.

(** A call with two different codes succeeds as soon as the service answers
    with a rate for [target] that [float] accepts. *)
Lemma fetch_conversion_done (amount : float) (base target : pystr) (w : World)
    (status : Z) (data rates : gmap pystr json) (v : json) (converted : float) :
  base <> target ->
  server w (sent w) (latest_request amount base target)
    = Responded status (Some (JObj data)) ->
  (400 <=? status) && (status <? 600) = false ->
  data !! lit "rates" = Some (JObj rates) ->
  rates !! target = Some v ->
  py_float v = Ok converted ->
  fetch_conversion amount base target w
  = (Ok (converted, if float_ne_zero amount then PrimFloat.div converted amount else nan),
     with_net w (sent w ++ [latest_request amount base target])).
Proof.
  intros Hne Hsrv Hst Hdata Hrates Hfl. unfold fetch_conversion.
  rewrite bool_decide_eq_false_2 by exact Hne.
  run. rewrite Hsrv. run. rewrite Hst. run.
  unfold dict_get. rewrite Hdata. simpl. rewrite Hrates. simpl. rewrite Hfl.
  unfold float_truediv, float_ne_zero.
  destruct (PrimFloat.eqb amount 0); reflexivity.
Qed.

(** C4: with the same code on both sides, [fetch_conversion] returns the
    amount and the rate [1.0] and leaves the world as it was: no request is
    issued. *)
Theorem fetch_conversion_identity (amount : float) (code : pystr) (w : World) :
  fetch_conversion amount code code w = (Ok (amount, 1%float), w)
  /\ sent (snd (fetch_conversion amount code code w)) = sent w.
Proof.
  rewrite fetch_conversion_same. split; reflexivity.
Qed.

(** C2, as amended: with two different codes and an amount equal to zero,
    a call that returns has NaN for its rate; it does return whenever the
    answer holds a rate for the target that [float] accepts; and no call
    raises [ZeroDivisionError]. *)
Theorem fetch_conversion_zero_amount (amount : float) (base target : pystr) (w : World) :
  float_ne_zero amount = false ->
  base <> target ->
  (forall status data rates v converted,
      server w (sent w) (latest_request amount base target)
        = Responded status (Some (JObj data)) ->
      (400 <=? status) && (status <? 600) = false ->
      data !! lit "rates" = Some (JObj rates) ->
      rates !! target = Some v ->
      py_float v = Ok converted ->
      fetch_conversion amount base target w
      = (Ok (converted, nan), with_net w (sent w ++ [latest_request amount base target])))
  /\ (forall converted rate w',
         fetch_conversion amount base target w = (Ok (converted, rate), w') -> rate = nan)
  /\ (forall e w',
         fetch_conversion amount base target w = (Raise e, w') -> e <> ZeroDivisionError).
Proof.
  intros Hzero Hne. repeat split.
  - intros status data rates v converted Hsrv Hst Hdata Hrates Hfl.
    rewrite (fetch_conversion_done amount base target w status data rates v converted)
      by assumption.
    rewrite Hzero. reflexivity.
  - intros converted rate w' Hrun.
    destruct (fetch_conversion_cases amount base target w Hne) as [Hout _].
    rewrite Hrun in Hout. simpl in Hout. inversion Hout; subst.
    rewrite Hzero. reflexivity.
  - intros e w' Hrun.
    destruct (fetch_conversion_cases amount base target w Hne) as [Hout _].
    rewrite Hrun in Hout. simpl in Hout. inversion Hout; subst. assumption.
Qed.

(** C5, as amended: when the amount is not zero, and is finite in case the
    two codes are equal, the rate a call returns is its converted amount
    divided by the amount. *)
Theorem fetch_conversion_rate (amount : float) (base target : pystr) (w w' : World)
    (converted rate : float) :
  float_ne_zero amount = true ->
  (base = target -> float_is_finite amount = true) ->
  fetch_conversion amount base target w = (Ok (converted, rate), w') ->
  rate = PrimFloat.div converted amount.
Proof.
  intros Hnz Hfin Hrun.
  destruct (decide (base = target)) as [->|Hne].
  - rewrite fetch_conversion_same in Hrun. injection Hrun as <- <- _.
    symmetry. apply div_self; auto.
  - destruct (fetch_conversion_cases amount base target w Hne) as [Hout _].
    rewrite Hrun in Hout. simpl in Hout. inversion Hout; subst.
    rewrite Hnz. reflexivity.
Qed.

End ConversionClaims.

(** *** Examples of conversions *)

Lemma INR_not_USD : INR <> USD.
Proof. discriminate. Defined.

(** A zero amount from INR to USD, quoted at zero: the rate is NaN. *)
Lemma fetch_conversion_zero_amount_witness :
  let w := form (quoting 0) on_2025_11_10 "0" "INR" "USD" "30" [] in
  fetch_conversion (rt := demo_runtime) 0 INR USD w
  = (Ok (0%float, nan), with_net w (sent w ++ [latest_request 0 INR USD])).
Proof.
  intros w.
  refine (proj1 (fetch_conversion_zero_amount (rt := demo_runtime) 0 INR USD w
                   _ INR_not_USD)
            200 (quote INR USD (JFloat 0)) (quote_rates USD (JFloat 0)) (JFloat 0) 0%float
            _ _ _ _ _);
    vm_compute; reflexivity.
Defined.

(** C2 fails as stated, twice over. With the same code on both sides and a
    zero amount, the rate returned is [1.0], which is not NaN. With two
    different codes, a zero amount and a service that cannot be reached,
    the call raises. *)
Lemma fetch_conversion_zero_same_code :
  let w := form offline on_2025_11_10 "0" "USD" "USD" "30" [] in
  let w' := form offline on_2025_11_10 "0" "INR" "USD" "30" [] in
  fetch_conversion (rt := demo_runtime) 0 USD USD w = (Ok (0%float, 1%float), w)
  /\ float_ne_zero 0 = false
  /\ is_nan 1 = false
  /\ fst (fetch_conversion (rt := demo_runtime) 0 INR USD w')
     = Raise (RequestException Transport).
Proof.
  simpl. repeat split; vm_compute; reflexivity.
Qed.

(** 100 INR quoted at 1.2 USD: the rate is 1.2 / 100. *)
Lemma fetch_conversion_rate_witness :
  let w := form (quoting 0x1.3333333333333p+0) on_2025_11_10 "100" "INR" "USD" "30" [] in
  fetch_conversion (rt := demo_runtime) 100 INR USD w
  = (Ok (0x1.3333333333333p+0%float, 0x1.89374bc6a7efap-7%float),
     with_net w [latest_request 100 INR USD])
  /\ 0x1.89374bc6a7efap-7%float = PrimFloat.div 0x1.3333333333333p+0 100.
Proof.
  intros w.
  assert (Hrun : fetch_conversion (rt := demo_runtime) 100 INR USD w
                 = (Ok (0x1.3333333333333p+0%float, 0x1.89374bc6a7efap-7%float),
                    with_net w [latest_request 100 INR USD]))
    by (vm_compute; reflexivity).
  split; [exact Hrun|].
  refine (fetch_conversion_rate (rt := demo_runtime) 100 INR USD w _ _ _ _ _ Hrun).
  - vm_compute; reflexivity.
  - intros H. destruct (INR_not_USD H).
Defined.

(** C5 fails as stated: with the same code on both sides and an infinite
    amount, the rate returned is [1.0] while the quotient is NaN. *)
Lemma fetch_conversion_infinite_same_code :
  let w := form offline on_2025_11_10 "inf" "USD" "USD" "30" [] in
  fetch_conversion (rt := demo_runtime) infinity USD USD w = (Ok (infinity, 1%float), w)
  /\ float_ne_zero infinity = true
  /\ is_nan (PrimFloat.div infinity infinity) = true
  /\ is_nan 1 = false.
Proof.
  simpl. repeat split; vm_compute; reflexivity.
Qed.

(** ** The order on strings and [sorted] *)

Lemma str_ltb_irrefl (a : pystr) : str_ltb a a = false.
Proof.
  induction a as [|x a IH]; simpl; [reflexivity|].
  rewrite N.ltb_irrefl, N.eqb_refl, IH. reflexivity.
Qed.

Lemma str_ltb_cons (x y : N) (a b : pystr) :
  str_ltb (x :: a) (y :: b) = true <-> (x < y)%N \/ (x = y /\ str_ltb a b = true).
Proof.
  simpl. rewrite orb_true_iff, andb_true_iff, N.ltb_lt, N.eqb_eq. reflexivity.
Qed.

Lemma str_ltb_trans (a b c : pystr) :
  str_ltb a b = true -> str_ltb b c = true -> str_ltb a c = true.
Proof.
  revert b c. induction a as [|x a IH]; intros [|y b] [|z c]; try discriminate; auto.
  rewrite !str_ltb_cons. intros [Hxy|[-> Hab]] [Hyz|[-> Hbc]].
  - left. lia.
  - left. exact Hxy.
  - left. exact Hyz.
  - right. split; [reflexivity|]. eapply IH; eassumption.
Qed.

Lemma str_ltb_connex (a b : pystr) :
  str_ltb a b = false -> str_ltb b a = false -> a = b.
Proof.
  revert b. induction a as [|x a IH]; intros [|y b]; try discriminate; auto.
  simpl. rewrite !orb_false_iff, !andb_false_iff, !N.ltb_ge, !N.eqb_neq.
  intros [Hxy Hab] [Hyx Hba].
  assert (x = y) as -> by lia.
  f_equal. apply IH; [destruct Hab | destruct Hba]; congruence.
Qed.

Lemma str_le_lt_eq (a b : pystr) : str_le a b <-> str_lt a b \/ a = b.
Proof.
  unfold str_le, str_lt, str_leb. rewrite negb_True, Is_true_true.
  split.
  - intros Hba. destruct (str_ltb a b) eqn:Hab; [left; reflexivity|].
    right. apply str_ltb_connex; [exact Hab|]. now apply not_true_is_false.
  - intros [Hab| ->] Hba.
    + pose proof (str_ltb_trans _ _ _ Hab Hba) as H.
      rewrite str_ltb_irrefl in H. discriminate.
    + rewrite str_ltb_irrefl in Hba. discriminate.
Qed.

#[local] Instance str_le_total : Total str_le.
Proof.
  intros a b. rewrite !str_le_lt_eq.
  destruct (str_ltb a b) eqn:Hab; [left; left; exact Hab|].
  destruct (str_ltb b a) eqn:Hba; [right; left; exact Hba|].
  left. right. now apply str_ltb_connex.
Qed.

#[local] Instance str_le_trans : Transitive str_le.
Proof.
  intros a b c. rewrite !str_le_lt_eq. unfold str_lt.
  intros [Hab| ->] [Hbc| ->]; auto.
  left. eapply str_ltb_trans; eassumption.
Qed.

Lemma sorted_Permutation (keys : list pystr) : sorted keys ≡ₚ keys.
Proof. apply merge_sort_Permutation. Qed.

(** Sorting keys that are all different puts them in strictly ascending
    order. *)
Lemma sorted_strict (keys : list pystr) :
  NoDup keys -> StronglySorted str_lt (sorted keys).
Proof.
  intros Hnd.
  assert (Hnd' : NoDup (sorted keys)) by (now rewrite sorted_Permutation).
  assert (Hs : StronglySorted str_le (sorted keys))
    by (apply (StronglySorted_merge_sort str_le)).
  induction Hs as [|k l Hs IH Hall]; constructor.
  - apply IH. now inversion Hnd'.
  - apply NoDup_cons in Hnd' as [Hk _].
    rewrite Forall_forall in *. intros x Hx.
    destruct (proj1 (str_le_lt_eq k x) (Hall x Hx)) as [Hlt| ->]; [exact Hlt|].
    contradiction.
Qed.

(** ** [fetch_timeseries] *)

Lemma map_fmap {A B} (f : A -> B) (l : list A) : map f l = f <$> l.
Proof. induction l as [|a l IH]; [reflexivity|]. simpl. rewrite IH. reflexivity. Qed.

Lemma dict_set_fresh (d : series) (k : pystr) (v : float) :
  k ∉ map fst d -> dict_set d k v = d ++ [(k, v)].
Proof.
  induction d as [|[k' v'] d IH]; simpl; intros Hk; [reflexivity|].
  apply not_elem_of_cons in Hk as [Hne Hk].
  rewrite bool_decide_eq_false_2 by congruence.
  rewrite IH by exact Hk. reflexivity.
Qed.

Section Timeseries.
Context {rt : Runtime}.

Lemma collect_rates_spec (table : json) (target : pystr)
    (days : list pystr) (acc res : series) :
  NoDup days ->
  (forall day, day ∈ days -> day ∉ map fst acc) ->
  collect_rates table target days acc = Ok res
  <-> Forall (fun day => is_ok (day_value table target day) = true) days
      /\ res = acc ++ kept table target days.
Proof.
  revert acc. induction days as [|day days IH]; intros acc Hnd Hfresh.
  - simpl. unfold kept. simpl. rewrite app_nil_r. split.
    + intros [= ->]. split; [constructor | reflexivity].
    + intros [_ ->]. reflexivity.
  - apply NoDup_cons in Hnd as [Hday Hnd].
    assert (Hacc : day ∉ map fst acc) by (apply Hfresh; left).
    assert (Hrest : forall x, x ∈ days -> x ∉ map fst acc)
      by (intros; apply Hfresh; now right).
    rewrite Forall_cons. unfold kept. simpl.
    destruct (day_value table target day) as [[x|]|e]; simpl.
    + rewrite dict_set_fresh by exact Hacc.
      rewrite IH; [|exact Hnd|].
      * rewrite <- app_assoc. simpl. unfold kept. intuition.
      * intros d Hd. rewrite map_app. simpl.
        rewrite elem_of_app, list_elem_of_singleton.
        intros [Hin| ->]; [now apply (Hrest d) | contradiction].
    + rewrite IH by assumption. unfold kept. intuition.
    + split; [discriminate | intros [[? _] _]; discriminate].
Qed.

Lemma day_value_some (table : gmap pystr json) (target day : pystr) (x : float) :
  day_value (JObj table) target day = Ok (Some x)
  <-> exists payload v,
        table !! day = Some (JObj payload) /\ payload !! target = Some v
        /\ v <> JNull /\ py_float v = Ok x.
Proof.
  unfold day_value, subscript, dict_get. split.
  - destruct (table !! day) as [[| | | | | |payload]|]; try discriminate.
    destruct (payload !! target) as [v|] eqn:Hv; simpl; [|discriminate].
    intros H. exists payload, v.
    split; [reflexivity|]. split; [exact Hv|]. clear Hv.
    destruct v; try discriminate; (split; [discriminate|]);
      match type of H with
      | match ?f with _ => _ end = _ => destruct f eqn:Hf; [|discriminate]
      end; injection H as ->; first [exact Hf | reflexivity].
  - intros (payload & v & -> & Hv & Hnull & Hfl). rewrite Hv. simpl.
    destruct v; try contradiction; rewrite Hfl; reflexivity.
Qed.

Lemma day_value_none (table : gmap pystr json) (target day : pystr) :
  day_value (JObj table) target day = Ok None
  <-> exists payload,
        table !! day = Some (JObj payload)
        /\ (payload !! target = None \/ payload !! target = Some JNull).
Proof.
  unfold day_value, subscript, dict_get. split.
  - destruct (table !! day) as [[| | | | | |payload]|]; try discriminate.
    intros H. exists payload. split; [reflexivity|].
    destruct (payload !! target) as [v|]; [|left; reflexivity].
    right. simpl in H.
    destruct v; try reflexivity;
      match type of H with
      | match ?f with _ => _ end = _ => destruct f; discriminate
      end.
  - intros (payload & -> & [Hv|Hv]); rewrite Hv; reflexivity.
Qed.

Lemma elem_of_kept (table : json) (target : pystr) (days : list pystr)
    (day : pystr) (x : float) :
  (day, x) ∈ kept table target days
  <-> day ∈ days /\ day_value table target day = Ok (Some x).
Proof.
  unfold kept. rewrite list_elem_of_omap. split.
  - intros (d & Hd & Hv).
    destruct (day_value table target d) as [[y|]|] eqn:Hy; try discriminate.
    injection Hv as -> ->. split; assumption.
  - intros [Hd Hv]. exists day. rewrite Hv. split; [assumption | reflexivity].
Qed.

Lemma kept_sorted (R : relation pystr) (table : json) (target : pystr)
    (days : list pystr) :
  StronglySorted R days -> StronglySorted R (map fst (kept table target days)).
Proof.
  induction 1 as [|day days Hs IH Hall]; [constructor|].
  unfold kept. simpl.
  destruct (day_value table target day) as [[x|]|]; simpl; try exact IH.
  constructor; [exact IH|].
  rewrite Forall_forall in *. intros d Hd.
  rewrite map_fmap in Hd. apply list_elem_of_fmap in Hd as ([d' y] & -> & Hd).
  apply elem_of_kept in Hd as [Hd _]. simpl. auto.
Qed.

(** Where [fetch_timeseries] stands once the service has answered with a
    dict holding a dict under ["rates"]. *)
Lemma fetch_timeseries_run (base target : pystr) (days : Z) (w : World)
    (start : Date.t) (status : Z) (data table : gmap pystr json) :
  let stop := clock w (clock_reads w) in
  let rq := range_request start stop base target in
  Date.sub_days stop days = Ok start ->
  server w (sent w) rq = Responded status (Some (JObj data)) ->
  (400 <=? status) && (status <? 600) = false ->
  data !! lit "rates" = Some (JObj table) ->
  fetch_timeseries base target days w
  = (match collect_rates (JObj table) target (sorted (map fst (map_to_list table))) [] with
     | Ok [] => Raise (ValueError NoHistoricalRates)
     | Ok rates => Ok rates
     | Raise e => Raise e
     end,
     after_history_request w rq).
Proof.
  intros stop rq Hstart Hsrv Hst Hdata.
  unfold fetch_timeseries, today. run. fold stop. rewrite Hstart. run.
  simpl. fold rq. rewrite Hsrv. run. rewrite Hst. run.
  unfold py_in, subscript. rewrite Hdata. simpl.
  destruct (collect_rates _ _ _ _) as [[|r rs]|e]; reflexivity.
Qed.

(** What a returning call of [fetch_timeseries] went through. *)
Lemma fetch_timeseries_inv (base target : pystr) (days : Z) (w w' : World)
    (rates : series) :
  fetch_timeseries base target days w = (Ok rates, w') ->
  exists start status data table,
    let stop := clock w (clock_reads w) in
    let rq := range_request start stop base target in
    Date.sub_days stop days = Ok start
    /\ server w (sent w) rq = Responded status (Some (JObj data))
    /\ (400 <=? status) && (status <? 600) = false
    /\ data !! lit "rates" = Some (JObj table)
    /\ collect_rates (JObj table) target (sorted (map fst (map_to_list table))) [] = Ok rates
    /\ rates <> []
    /\ w' = after_history_request w rq.
Proof.
  unfold fetch_timeseries, today. run. 
  set (stop := clock w (clock_reads w)).
  destruct (Date.sub_days stop days) as [start|e] eqn:Hstart; run; [|discriminate].
  simpl. set (rq := range_request start stop base target).
  destruct (server w (sent w) rq) as [|status body] eqn:Hsrv; run; [discriminate|].
  destruct ((400 <=? status) && (status <? 600)) eqn:Hst; run; [discriminate|].
  destruct body as [data|]; run; [|discriminate].
  destruct (py_in (lit "rates") data) as [[|]|e] eqn:Hin; simpl; try discriminate.
  destruct (subscript data (lit "rates")) as [table|e] eqn:Hsub; simpl; [|discriminate].
  destruct (dict_keys table) as [keys|e] eqn:Hkeys; simpl; [|discriminate].
  destruct data as [| | | | | |data]; try discriminate.
  simpl in Hsub. destruct (data !! lit "rates") as [t|] eqn:Hdata; [|discriminate].
  injection Hsub as ->.
  destruct table as [| | | | | |table]; try discriminate.
  injection Hkeys as <-.
  destruct (collect_rates _ _ _ _) as [[|r rs]|e] eqn:Hcol; simpl; try discriminate.
  intros [= <- <-].
  exists start, status, data, table. simpl. fold stop. fold rq.
  repeat split; try assumption; try reflexivity. discriminate.
Qed.

Lemma keys_NoDup (table : gmap pystr json) : NoDup (map fst (map_to_list table)).
Proof. rewrite map_fmap. apply NoDup_fst_map_to_list. Qed.

Lemma sorted_keys_NoDup (table : gmap pystr json) :
  NoDup (sorted (map fst (map_to_list table))).
Proof. rewrite sorted_Permutation. apply keys_NoDup. Qed.

Lemma elem_of_keys (table : gmap pystr json) (day : pystr) :
  day ∈ sorted (map fst (map_to_list table)) <-> is_Some (table !! day).
Proof.
  rewrite sorted_Permutation, map_fmap, list_elem_of_fmap. split.
  - intros ([d v] & -> & Hin). apply elem_of_map_to_list in Hin. eauto.
  - intros [v Hv]. exists (day, v). split; [reflexivity|].
    now apply elem_of_map_to_list.
Qed.

End Timeseries.

(** ** ISO dates compare as strings the way they compare as dates *)

Lemma digits_padded_ltb (width : nat) (n m : Z) (s t : pystr) :
  0 <= n < 10 ^ Z.of_nat width ->
  0 <= m < 10 ^ Z.of_nat width ->
  str_ltb (digits_padded width n ++ s) (digits_padded width m ++ t)
  = (n <? m) || ((n =? m) && str_ltb s t).
Proof.
  revert n m s t. induction width as [|width IH]; intros n m s t Hn Hm.
  - simpl in *. assert (n = 0) as -> by lia. assert (m = 0) as -> by lia. reflexivity.
  - rewrite Nat2Z.inj_succ, Z.pow_succ_r in Hn, Hm by lia.
    simpl. rewrite <- !app_assoc. rewrite IH by (split; [apply Z.div_pos; lia | apply Z.div_lt_upper_bound; lia]).
    simpl.
    pose proof (Z.div_mod n 10 ltac:(lia)) as Hdn.
    pose proof (Z.div_mod m 10 ltac:(lia)) as Hdm.
    pose proof (Z.mod_pos_bound n 10 ltac:(lia)) as Hrn.
    pose proof (Z.mod_pos_bound m 10 ltac:(lia)) as Hrm.
    set (qn := n / 10) in *. set (qm := m / 10) in *.
    set (rn := n mod 10) in *. set (rm := m mod 10) in *.
    destruct (Z.ltb_spec qn qm), (Z.eqb_spec qn qm), (Z.ltb_spec n m), (Z.eqb_spec n m);
      simpl; try lia; try reflexivity.
    all: destruct (N.ltb_spec (Z.to_N (48 + rn)) (Z.to_N (48 + rm)));
      destruct (N.eqb_spec (Z.to_N (48 + rn)) (Z.to_N (48 + rm)));
      simpl; try lia; try reflexivity.
Qed.

Lemma valid_in_iso_range (d : Date.t) : Date.valid d = true -> in_iso_range d.
Proof.
  unfold Date.valid, in_iso_range, Date.days_in_month.
  rewrite !andb_true_iff, !Z.leb_le. intros [[[[[? ?] ?] ?] ?] Hd].
  repeat split; try lia.
  destruct (Date.month d =? 2); [destruct (Date.is_leap _)|destruct (_ || _)]; lia.
Qed.

(** On two dates of the years 0 to 9999, the order of the ISO texts is the
    order of the calendar. *)
Lemma isoformat_ltb (a b : Date.t) :
  in_iso_range a -> in_iso_range b ->
  str_ltb (Date.isoformat a) (Date.isoformat b) = Date.ltb a b.
Proof.
  intros (Hy & Hm & Hd) (Hy' & Hm' & Hd'). unfold Date.isoformat, Date.ltb.
  rewrite digits_padded_ltb by (change (10 ^ Z.of_nat 4) with 10000; lia).
  cbn [str_ltb app]. rewrite N.ltb_irrefl, N.eqb_refl. cbn [orb andb].
  rewrite digits_padded_ltb by (change (10 ^ Z.of_nat 2) with 100; lia).
  cbn [str_ltb app]. rewrite N.ltb_irrefl, N.eqb_refl. cbn [orb andb].
  rewrite <- (app_nil_r (digits_padded 2 (Date.day a))).
  rewrite <- (app_nil_r (digits_padded 2 (Date.day b))).
  rewrite digits_padded_ltb by (change (10 ^ Z.of_nat 2) with 100; lia).
  simpl. rewrite andb_false_r, orb_false_r. reflexivity.
Qed.

(** ** The series returned by [fetch_timeseries] *)

Lemma StronglySorted_lookup {A} (R : relation A) (l : list A) (i j : nat) (x y : A) :
  StronglySorted R l -> (i < j)%nat -> l !! i = Some x -> l !! j = Some y -> R x y.
Proof.
  intros Hs. revert i j. induction Hs as [|a l Hs IH Hall]; intros i j Hij Hi Hj.
  - discriminate.
  - destruct j as [|j]; [lia|]. destruct i as [|i]; simpl in *.
    + injection Hi as ->. rewrite Forall_forall in Hall. apply Hall.
      eapply list_elem_of_lookup_2. exact Hj.
    + apply (IH i j); [lia | assumption | assumption].
Qed.

Lemma sorted_dates_ascending (keys : list pystr) :
  StronglySorted str_lt keys -> dates_ascending keys.
Proof.
  intros Hs i j a b Hij Hi Hj Ha Hb.
  rewrite <- isoformat_ltb by (apply valid_in_iso_range; assumption).
  exact (StronglySorted_lookup str_lt keys i j _ _ Hs Hij Hi Hj).
Qed.

Section TimeseriesClaims.
Context {rt : Runtime}.

Lemma kept_nil (table : json) (target : pystr) (days : list pystr) :
  Forall (fun day => day_value table target day = Ok None) days ->
  kept table target days = [].
Proof.
  induction 1 as [|day days Hday _ IH]; [reflexivity|].
  unfold kept in *. simpl. rewrite Hday. exact IH.
Qed.

(** C6: when [fetch_timeseries] returns, the answer was a dict with a dict
    [table] under ["rates"]; the keys of the result are strictly ascending
    as strings, and so in calendar order where they are ISO dates; every
    entry holds, as a float, the value that the payload of its day has for
    [target]; a day whose payload lacks [target] is not among the keys,
    and a day whose payload has a value for it other than null is. *)
Theorem fetch_timeseries_sorted_filtered (base target : pystr) (days : Z)
    (w w' : World) (rates : series) :
  fetch_timeseries base target days w = (Ok rates, w') ->
  exists (start : Date.t) (status : Z) (data table : gmap pystr json),
    server w (sent w) (range_request start (clock w (clock_reads w)) base target)
      = Responded status (Some (JObj data))
    /\ data !! lit "rates" = Some (JObj table)
    /\ StronglySorted str_lt (map fst rates)
    /\ dates_ascending (map fst rates)
    /\ (forall day x, In (day, x) rates ->
          exists payload v,
            table !! day = Some (JObj payload)
            /\ payload !! target = Some v /\ py_float v = Ok x)
    /\ (forall day payload,
          table !! day = Some (JObj payload) -> payload !! target = None ->
          ~ In day (map fst rates))
    /\ (forall day payload v,
          table !! day = Some (JObj payload) -> payload !! target = Some v ->
          v <> JNull -> In day (map fst rates)).
Proof.
  intros Hrun.
  apply fetch_timeseries_inv in Hrun
    as (start & status & data & table & _ & Hsrv & _ & Hdata & Hcol & _ & _).
  exists start, status, data, table.
  apply collect_rates_spec in Hcol as [Hall ->];
    [|apply sorted_keys_NoDup | intros ? _; apply not_elem_of_nil].
  simpl.
  assert (Hsorted : StronglySorted str_lt
            (map fst (kept (JObj table) target (sorted (map fst (map_to_list table))))))
    by (apply kept_sorted, sorted_strict, keys_NoDup).
  repeat split; try assumption.
  - apply sorted_dates_ascending. exact Hsorted.
  - intros day x Hin. apply list_elem_of_In, elem_of_kept in Hin as [_ Hv].
    apply day_value_some in Hv as (payload & v & Hp & Hv & _ & Hfl).
    exists payload, v. auto.
  - intros day payload Hp Hv Hin.
    apply in_map_iff in Hin as ([d x] & Hd & Hin). simpl in Hd. subst d.
    apply list_elem_of_In, elem_of_kept in Hin as [_ Hval].
    apply day_value_some in Hval as (payload' & v & Hp' & Hv' & _).
    congruence.
  - intros day payload v Hp Hv Hnull.
    rewrite Forall_forall in Hall.
    assert (Hday : day ∈ sorted (map fst (map_to_list table)))
      by (apply elem_of_keys; eauto).
    pose proof (Hall day Hday) as Hok.
    destruct (day_value (JObj table) target day) as [[x|]|e] eqn:Hval; [| |discriminate].
    + apply in_map_iff. exists (day, x). split; [reflexivity|].
      apply list_elem_of_In, elem_of_kept. auto.
    + apply day_value_none in Hval as (payload' & Hp' & [Hn|Hn]); congruence.
Qed.

(** [fetch_timeseries] returns as soon as the loop gets through every day
    of the table and keeps at least one. *)
Lemma fetch_timeseries_returns (base target : pystr) (days : Z) (w : World)
    (start : Date.t) (status : Z) (data table : gmap pystr json) :
  let stop := clock w (clock_reads w) in
  let rq := range_request start stop base target in
  let keys := sorted (map fst (map_to_list table)) in
  Date.sub_days stop days = Ok start ->
  server w (sent w) rq = Responded status (Some (JObj data)) ->
  (400 <=? status) && (status <? 600) = false ->
  data !! lit "rates" = Some (JObj table) ->
  Forall (fun day => is_ok (day_value (JObj table) target day) = true) keys ->
  kept (JObj table) target keys <> [] ->
  fetch_timeseries base target days w
  = (Ok (kept (JObj table) target keys), after_history_request w rq).
Proof.
  intros stop rq keys Hstart Hsrv Hst Hdata Hall Hkept.
  rewrite (fetch_timeseries_run base target days w start status data table)
    by assumption.
  fold stop. fold rq. fold keys.
  assert (Hcol : collect_rates (JObj table) target keys []
                 = Ok (kept (JObj table) target keys)).
  { apply collect_rates_spec.
    - apply sorted_keys_NoDup.
    - intros ? _. apply not_elem_of_nil.
    - split; [exact Hall | reflexivity]. }
  rewrite Hcol. destruct (kept (JObj table) target keys); [contradiction | reflexivity].
Qed.

(** A series that [fetch_timeseries] returns is never empty. *)
Lemma fetch_timeseries_nonempty (base target : pystr) (days : Z) (w w' : World)
    (rates : series) :
  fetch_timeseries base target days w = (Ok rates, w') -> rates <> [].
Proof.
  intros Hrun.
  apply fetch_timeseries_inv in Hrun as (? & ? & ? & ? & _ & _ & _ & _ & _ & Hne & _).
  exact Hne.
Qed.

(** C7: when the answer holds a table of days under ["rates"] and no
    payload of it has the target code, [fetch_timeseries] raises the
    [ValueError] for an empty history; it returns no series, empty or not. *)
Theorem fetch_timeseries_no_history (base target : pystr) (days : Z) (w : World)
    (start : Date.t) (status : Z) (data table : gmap pystr json) :
  let stop := clock w (clock_reads w) in
  let rq := range_request start stop base target in
  Date.sub_days stop days = Ok start ->
  server w (sent w) rq = Responded status (Some (JObj data)) ->
  (400 <=? status) && (status <? 600) = false ->
  data !! lit "rates" = Some (JObj table) ->
  (forall day payload,
      table !! day = Some payload ->
      exists p, payload = JObj p /\ p !! target = None) ->
  fetch_timeseries base target days w
  = (Raise (ValueError NoHistoricalRates), after_history_request w rq)
  /\ (forall rates w', fetch_timeseries base target days w <> (Ok rates, w')).
Proof.
  intros stop rq Hstart Hsrv Hst Hdata Hnone.
  assert (Hrun : fetch_timeseries base target days w
                 = (Raise (ValueError NoHistoricalRates), after_history_request w rq)).
  { rewrite (fetch_timeseries_run base target days w start status data table)
      by assumption.
    fold stop. fold rq.
    assert (Hall : Forall (fun day => day_value (JObj table) target day = Ok None)
                     (sorted (map fst (map_to_list table)))).
    { rewrite Forall_forall. intros day Hday.
      apply elem_of_keys in Hday as [payload Hp].
      destruct (Hnone day payload Hp) as (p & -> & Hp').
      apply day_value_none. eauto. }
    assert (Hcol : collect_rates (JObj table) target
                     (sorted (map fst (map_to_list table))) [] = Ok []).
    { apply collect_rates_spec.
      - apply sorted_keys_NoDup.
      - intros ? _. apply not_elem_of_nil.
      - split; [|rewrite kept_nil by exact Hall; reflexivity].
        eapply Forall_impl; [exact Hall|]. simpl. intros ? ->. reflexivity. }
    rewrite Hcol. reflexivity. }
  split; [exact Hrun|]. intros rates w'. rewrite Hrun. discriminate.
Qed.

End TimeseriesClaims.

(** *** Examples of histories fetched *)

(** Three days answered out of order, the middle one without USD: the two
    others come back in order. *)
Lemma fetch_timeseries_sorted_filtered_witness :
  let w := form (serving 0x1.3333333333333p+0 gap_days) on_2025_11_10
             "100" "INR" "USD" "30" [] in
  let rates := [(lit "2025-11-08", 10%float); (lit "2025-11-10", 99%float)] in
  fetch_timeseries (rt := demo_runtime) INR USD 30 w
  = (Ok rates, after_history_request w history_request)
  /\ StronglySorted str_lt (map fst rates)
  /\ dates_ascending (map fst rates)
  /\ ~ In (lit "2025-11-09") (map fst rates).
Proof.
  intros w rates.
  assert (Hrun : fetch_timeseries (rt := demo_runtime) INR USD 30 w
                 = (Ok rates, after_history_request w history_request))
    by (vm_compute; reflexivity).
  split; [exact Hrun|].
  destruct (fetch_timeseries_sorted_filtered (rt := demo_runtime) INR USD 30 w _ rates Hrun)
    as (start & status & data & table & _ & _ & Hsorted & Hdates & _).
  repeat split; [exact Hsorted | exact Hdates |].
  simpl. intros [H|[H|[]]]; discriminate H.
Defined.

Lemma other_table_lacks_USD (day : pystr) (payload : json) :
  other_table !! day = Some payload ->
  exists p, payload = JObj p /\ p !! USD = None.
Proof.
  unfold other_table, other_days. simpl.
  rewrite !lookup_insert_Some, lookup_empty.
  intros [[_ <-]|[_ [[_ <-]|[_ H]]]]; [| |discriminate];
    eexists; (split; [reflexivity|]); vm_compute; reflexivity.
Defined.

(** Two days, neither with USD: the call raises. *)
Lemma fetch_timeseries_no_history_witness :
  let w := form (serving 0x1.3333333333333p+0 other_days) on_2025_11_10
             "100" "INR" "USD" "30" [] in
  fetch_timeseries (rt := demo_runtime) INR USD 30 w
  = (Raise (ValueError NoHistoricalRates), after_history_request w history_request).
Proof.
  intros w.
  refine (proj1 (fetch_timeseries_no_history (rt := demo_runtime) INR USD 30 w
                   (Date.mk 2025 10 11) 200 (history other_days) other_table
                   _ _ _ _ other_table_lacks_USD));
    vm_compute; reflexivity.
Defined.

(** ** The pipeline of [on_convert] *)

Section PipelineClaims.
Context {db : CharDb} {rt : Runtime}.

Lemma removelast_length_Z {A} (l : list A) :
  l <> [] -> Z.of_nat (length (removelast l)) = Z.of_nat (length l) - 1.
Proof.
  intros Hl. destruct (exists_last Hl) as (l' & a & ->).
  rewrite removelast_last, length_app. simpl. lia.
Qed.

Lemma period_average_mean (rates : series) (w : World) :
  rates <> [] ->
  fst (period_average rates w) = mean_excluding_today (clock w (clock_reads w)) rates.
Proof.
  intros Hne. unfold period_average, is_today_included, mean_excluding_today.
  destruct (last (map fst rates)) as [last_day|] eqn:Hlast.
  2:{ apply last_None in Hlast. destruct rates; [contradiction | discriminate]. }
  unfold today. run. rewrite length_map.
  destruct (decide (last_day = Date.isoformat (clock w (clock_reads w)))) as [Heq|Hneq].
  - rewrite (bool_decide_eq_true_2 _ Heq). simpl.
    destruct (Nat.ltb_spec 1 (length rates)) as [Hlen|Hlen].
    + rewrite bool_decide_eq_true_2 by (split; [congruence | exact Hlen]).
      unfold arithmetic_mean. rewrite removelast_length_Z, length_map.
      * reflexivity.
      * destruct rates; [contradiction | discriminate].
    + rewrite bool_decide_eq_false_2 by lia.
      unfold arithmetic_mean. rewrite length_map. reflexivity.
  - rewrite (bool_decide_eq_false_2 _ Hneq). simpl.
    rewrite bool_decide_eq_false_2 by (intros [H _]; congruence).
    unfold arithmetic_mean. rewrite length_map. reflexivity.
Qed.

(** C1: on a series returned by [fetch_timeseries], which is never empty,
    the period average that the pipeline computes is the mean of all values
    but the last when the last date is today's date and there is more than
    one entry, and the mean of all values otherwise. *)
Theorem period_average_spec (base target : pystr) (days : Z) (w w1 : World)
    (rates : series) :
  fetch_timeseries base target days w = (Ok rates, w1) ->
  rates <> []
  /\ fst (period_average rates w1)
     = mean_excluding_today (clock w1 (clock_reads w1)) rates.
Proof.
  intros Hrun. apply fetch_timeseries_nonempty in Hrun.
  split; [exact Hrun | apply period_average_mean; exact Hrun].
Qed.

(** *** Failures before the first write *)

Lemma fetch_conversion_keeps_form (amount : float) (base target : pystr) (w : World) :
  output (snd (fetch_conversion amount base target w)) = output w
  /\ dialogs (snd (fetch_conversion amount base target w)) = dialogs w.
Proof.
  destruct (decide (base = target)) as [->|Hne].
  - rewrite fetch_conversion_same. split; reflexivity.
  - destruct (fetch_conversion_cases amount base target w Hne) as [_ ->].
    split; reflexivity.
Qed.

Lemma on_convert_error_box (w w' : World) (e : exn) :
  convert_and_plot w = (Raise e, w') -> on_convert w = showerror (error_box e) w'.
Proof.
  unfold on_convert, error_box. intros ->. destruct (is_request_exception e); reflexivity.
Qed.

(** C3, as amended: a run that fails in the validation of the inputs or in
    the conversion request leaves the text area as it was, and reports the
    failure in one error box. *)
Theorem on_convert_early_failure (w : World) (e : exn) :
  fails_early w e ->
  output (on_convert w) = output w
  /\ dialogs (on_convert w) = dialogs w ++ [error_box e].
Proof.
  intros [e' Hin | amount base target days e' w' Hin Hconv].
  - rewrite (on_convert_error_box w w e').
    + split; reflexivity.
    + unfold convert_and_plot. run. rewrite Hin. reflexivity.
  - rewrite (on_convert_error_box w w' e').
    + pose proof (fetch_conversion_keeps_form amount base target w) as [Ho Hd].
      rewrite Hconv in Ho, Hd. simpl in Ho, Hd. simpl. rewrite Ho, Hd.
      split; reflexivity.
    + unfold convert_and_plot. run. rewrite Hin. run. rewrite Hconv. reflexivity.
Qed.

(** *** Validation comes first *)

Lemma read_inputs_invalid (w : World) :
  invalid_input w <-> exists m, read_inputs w = Raise (ValueError m).
Proof.
  unfold invalid_input, days_entry_invalid, read_inputs, float_of_str, int_of_str,
    normalize_ccy.
  destruct (parse_float (amount_var w)) as [amount|].
  2:{ split; [eauto | left; reflexivity]. }
  destruct (negb (length (upper (strip (base_var w))) =? 3)%nat
            || negb (isalpha (upper (strip (base_var w))))).
  { simpl. split; [eauto | right; left; reflexivity]. }
  destruct (negb (length (upper (strip (target_var w))) =? 3)%nat
            || negb (isalpha (upper (strip (target_var w))))).
  { simpl. split; [eauto | right; right; left; reflexivity]. }
  simpl. destruct (strip (days_var w)) as [|c s] eqn:Hs.
  { simpl. split.
    - intros [H|[H|[H|[H _]]]]; try discriminate. contradiction.
    - intros [m H]. discriminate. }
  destruct (parse_int (c :: s)) as [n|].
  - destruct (Z.ltb_spec n 1).
    + split; [eauto|]. intros _. right; right; right. split; [discriminate | assumption].
    + split; [|intros [m H']; discriminate].
      intros [H'|[H'|[H'|[_ H']]]]; try discriminate. lia.
  - split; [eauto|]. intros _. right; right; right. split; [discriminate | exact I].
Qed.

(** C8: when one of the four entries does not pass validation, the run ends
    in an error box for a [ValueError] with the world otherwise untouched:
    no request has been issued. *)
Theorem on_convert_validates_first (w : World) :
  invalid_input w ->
  (exists m, on_convert w = showerror (ErrorBox (ValueError m)) w)
  /\ sent (on_convert w) = sent w.
Proof.
  intros [m Hin]%read_inputs_invalid.
  assert (Hrun : on_convert w = showerror (ErrorBox (ValueError m)) w).
  { rewrite (on_convert_error_box w w (ValueError m)); [reflexivity|].
    unfold convert_and_plot. run. rewrite Hin. reflexivity. }
  split; [eauto|]. rewrite Hrun. reflexivity.
Qed.

End PipelineClaims.

(** *** Examples of runs *)

(** Three days ending today: the average is that of the first two. *)
Lemma period_average_spec_witness :
  let w := form (serving 0x1.3333333333333p+0 three_days) on_2025_11_10
             "100" "INR" "USD" "30" [] in
  let w1 := after_history_request w history_request in
  fetch_timeseries (rt := demo_runtime) INR USD 30 w = (Ok rates_of_three_days, w1)
  /\ fst (period_average (rt := demo_runtime) rates_of_three_days w1)
     = mean_excluding_today (rt := demo_runtime) on_2025_11_10 rates_of_three_days
  /\ mean_excluding_today (rt := demo_runtime) on_2025_11_10 rates_of_three_days
     = Ok 15%float.
Proof.
  intros w w1.
  assert (Hrun : fetch_timeseries (rt := demo_runtime) INR USD 30 w
                 = (Ok rates_of_three_days, w1))
    by (vm_compute; reflexivity).
  split; [exact Hrun|].
  split; [|vm_compute; reflexivity].
  exact (proj2 (period_average_spec (rt := demo_runtime) INR USD 30 w w1
                  rates_of_three_days Hrun)).
Defined.

(** The average leaves out today's 99: (10 + 20) / 2. *)
Example average_excludes_today :
  let w := form (serving 0x1.3333333333333p+0 three_days) on_2025_11_10
             "100" "INR" "USD" "30" [] in
  figures (on_convert (db := latin1) (rt := demo_runtime) w)
  = [RateHistory rates_of_three_days INR USD;
     TodayVsAvg 0x1.89374bc6a7efap-7 15 INR USD;
     AmountComparison 100 0x1.3333333333333p+0 INR USD].
Proof. vm_compute. reflexivity. Qed.

(** With no entry for today, every value counts: (10 + 20) / 2. *)
Example average_includes_all :
  let w := form (serving 0x1.3333333333333p+0 two_days) on_2025_11_10
             "100" "INR" "USD" "30" [] in
  figures (on_convert (db := latin1) (rt := demo_runtime) w)
  = [RateHistory rates_of_two_days INR USD;
     TodayVsAvg 0x1.89374bc6a7efap-7 15 INR USD;
     AmountComparison 100 0x1.3333333333333p+0 INR USD].
Proof. vm_compute. reflexivity. Qed.

(** A single entry dated today is its own average. *)
Example average_of_today_alone :
  let w := form offline on_2025_11_10 "100" "INR" "USD" "30" [] in
  fst (period_average (rt := demo_runtime) [(lit "2025-11-10", 99%float)] w) = Ok 99%float.
Proof. vm_compute. reflexivity. Qed.

(** The whole run of the specification's scenario. *)
Example scenario_output :
  let w := form (serving 0x1.3333333333333p+0 three_days) on_2025_11_10
             "100" "inr" " usd " EmptyString (lit "old") in
  output (on_convert (db := latin1) (rt := demo_runtime) w)
  = text_of ["--------------------------------------------------";
             "Amount       : 100.0000 INR";
             "Current rate : 1 INR = 0.012000 USD";
             "Converted    : 1.2000 USD";
             "--------------------------------------------------";
             "Avg rate (30d window): 15.000000 USD/INR";
             "Close the charts to continue..."]%string
  /\ dialogs (on_convert (db := latin1) (rt := demo_runtime) w) = []
  /\ shows (on_convert (db := latin1) (rt := demo_runtime) w) = 1%nat.
Proof. vm_compute. repeat split; reflexivity. Qed.

(** The service cannot be reached: the text area still reads ["old"]. *)
Lemma on_convert_early_failure_witness :
  let w := form offline on_2025_11_10 "100" "INR" "USD" "30" (lit "old") in
  output (on_convert (db := latin1) (rt := demo_runtime) w) = lit "old"
  /\ dialogs (on_convert (db := latin1) (rt := demo_runtime) w)
     = [NetworkErrorBox (RequestException Transport)].
Proof.
  intros w.
  refine (on_convert_early_failure (db := latin1) (rt := demo_runtime) w
            (RequestException Transport)
            (fails_in_conversion w 100 INR USD 30 (RequestException Transport)
               (with_net w [latest_request 100 INR USD]) _ _));
    vm_compute; reflexivity.
Defined.

(** C3 fails as stated: when the conversion succeeds and the history request
    fails, the run ends in an error box and the text area, which read
    ["old"], holds the conversion summary. *)
Lemma on_convert_late_failure_changes_output :
  let w := form (quoting 0x1.3333333333333p+0) on_2025_11_10
             "100" "INR" "USD" "30" (lit "old") in
  dialogs (on_convert (db := latin1) (rt := demo_runtime) w)
  = [NetworkErrorBox (RequestException Transport)]
  /\ output w = lit "old"
  /\ output (on_convert (db := latin1) (rt := demo_runtime) w)
     = text_of ["--------------------------------------------------";
                "Amount       : 100.0000 INR";
                "Current rate : 1 INR = 0.012000 USD";
                "Converted    : 1.2000 USD";
                "--------------------------------------------------"]%string
  /\ output (on_convert (db := latin1) (rt := demo_runtime) w) <> output w.
Proof.
  simpl. repeat split; try (vm_compute; reflexivity).
  vm_compute. discriminate.
Qed.

(** A two-letter target code: an error box, and nothing sent. *)
Lemma on_convert_validates_first_witness :
  let w := form (quoting 0x1.3333333333333p+0) on_2025_11_10
             "100" "INR" "US" "30" (lit "old") in
  (exists m, on_convert (db := latin1) (rt := demo_runtime) w
             = showerror (ErrorBox (ValueError m)) w)
  /\ sent (on_convert (db := latin1) (rt := demo_runtime) w) = sent w.
Proof.
  intros w.
  apply (on_convert_validates_first (db := latin1) (rt := demo_runtime) w).
  right. right. left. vm_compute. reflexivity.
Defined.

(** Blank days mean thirty; zero and negative days are refused. *)
Example days_default_and_bounds :
  let run (days : string) := on_convert (db := latin1) (rt := demo_runtime)
                    (form (serving 0x1.3333333333333p+0 two_days) on_2025_11_10
                       "100" "INR" "USD" days []) in
  map req_url (sent (run EmptyString))
  = [lit "https://api.frankfurter.app/latest";
     lit "https://api.frankfurter.app/2025-10-11..2025-11-10"]
  /\ dialogs (run "0"%string) = [ErrorBox (ValueError HistoryDaysTooSmall)]
  /\ dialogs (run "-5"%string) = [ErrorBox (ValueError HistoryDaysTooSmall)]
  /\ sent (run "0"%string) = [] /\ sent (run "-5"%string) = [].
Proof. vm_compute. repeat split; reflexivity. Qed.


(** * Further properties *)

(** ** The rate client *)

Section ClientFacts.
Context {rt : Runtime}.

(** X1: with two different codes, [fetch_conversion] issues exactly one
    request, the [/latest] one with the amount and the two codes and a
    timeout of 15, whether it then returns or raises; nothing else of the
    world changes. *)
Theorem fetch_conversion_one_request (amount : float) (base target : pystr) (w : World) :
  base <> target ->
  snd (fetch_conversion amount base target w)
  = with_net w (sent w ++ [latest_request amount base target])
  /\ req_timeout (latest_request amount base target) = 15
  /\ req_params (latest_request amount base target)
     = [("amount"%string, PFloat amount); ("from"%string, PStr base);
        ("to"%string, PStr target)].
Proof.
  intros Hne.
  destruct (fetch_conversion_cases amount base target w Hne) as [_ Hw].
  repeat split. exact Hw.
Qed.

(** X2: with two different codes, an answer whose status is in 400..599
    makes [fetch_conversion] raise the request exception for that status,
    whatever the body says. *)
Theorem fetch_conversion_http_error (amount : float) (base target : pystr) (w : World)
    (status : Z) (body : option json) :
  base <> target ->
  server w (sent w) (latest_request amount base target) = Responded status body ->
  400 <= status < 600 ->
  fst (fetch_conversion amount base target w)
  = Raise (RequestException (HttpStatus status)).
Proof.
  intros Hne Hsrv Hst. unfold fetch_conversion.
  rewrite bool_decide_eq_false_2 by exact Hne.
  run. rewrite Hsrv. run.
  replace ((400 <=? status) && (status <? 600)) with true
    by (symmetry; apply andb_true_iff; split; [apply Z.leb_le | apply Z.ltb_lt]; lia).
  reflexivity.
Qed.

(** X3: with two different codes, an answer that is a dict without
    ["rates"], or whose ["rates"] dict has no entry for the target, makes
    [fetch_conversion] raise the [ValueError] that carries the two codes
    and the whole answer. *)
Theorem fetch_conversion_no_rate (amount : float) (base target : pystr) (w : World)
    (status : Z) (data : gmap pystr json) :
  base <> target ->
  server w (sent w) (latest_request amount base target)
    = Responded status (Some (JObj data)) ->
  (400 <=? status) && (status <? 600) = false ->
  data !! lit "rates" = None
  \/ (exists rates, data !! lit "rates" = Some (JObj rates) /\ rates !! target = None) ->
  fst (fetch_conversion amount base target w)
  = Raise (ValueError (NoRateReturned base target (JObj data))).
Proof.
  intros Hne Hsrv Hst Hdata. unfold fetch_conversion.
  rewrite bool_decide_eq_false_2 by exact Hne.
  run. rewrite Hsrv. run. rewrite Hst. run. unfold dict_get.
  destruct Hdata as [Hnone | (rates & Hrates & Htarget)].
  - rewrite Hnone. simpl. rewrite lookup_empty. reflexivity.
  - rewrite Hrates. simpl. rewrite Htarget. reflexivity.
Qed.

(** X4: an answer that is a dict without ["rates"] makes [fetch_timeseries]
    raise the [ValueError] that carries the whole answer. *)
Theorem fetch_timeseries_no_rates_field (base target : pystr) (days : Z) (w : World)
    (start : Date.t) (status : Z) (data : gmap pystr json) :
  let stop := clock w (clock_reads w) in
  let rq := range_request start stop base target in
  Date.sub_days stop days = Ok start ->
  server w (sent w) rq = Responded status (Some (JObj data)) ->
  (400 <=? status) && (status <? 600) = false ->
  data !! lit "rates" = None ->
  fetch_timeseries base target days w
  = (Raise (ValueError (TimeseriesFailed (JObj data))), after_history_request w rq).
Proof.
  intros stop rq Hstart Hsrv Hst Hdata.
  unfold fetch_timeseries, today. run. fold stop. rewrite Hstart. run.
  simpl. fold rq. rewrite Hsrv. run. rewrite Hst. run.
  unfold py_in. rewrite Hdata. reflexivity.
Qed.

(** X5: when the window would start before the first day of the calendar,
    that is when [days] is at least the ordinal of today, [fetch_timeseries]
    raises [OverflowError] after reading the clock and issues no request. *)
Theorem fetch_timeseries_window_overflow (base target : pystr) (days : Z) (w : World) :
  Date.toordinal (clock w (clock_reads w)) <= days ->
  fetch_timeseries base target days w
  = (Raise OverflowError, with_clock_reads w (S (clock_reads w)))
  /\ sent (snd (fetch_timeseries base target days w)) = sent w.
Proof.
  intros Hdays.
  assert (Hsub : Date.sub_days (clock w (clock_reads w)) days = Raise OverflowError).
  { unfold Date.sub_days. destruct (Z.ltb_spec 999999999 (Z.abs days)); [reflexivity|].
    replace (Date.toordinal (clock w (clock_reads w)) - days <? 1) with true
      by (symmetry; apply Z.ltb_lt; lia).
    reflexivity. }
  unfold fetch_timeseries, today. run. rewrite Hsub. split; reflexivity.
Qed.

(** X6: one day whose payload is not a dict makes the whole call fail: the
    loop does not skip it, and no partial series is returned. *)
Theorem fetch_timeseries_unreadable_day (base target : pystr) (days : Z) (w : World)
    (start : Date.t) (status : Z) (data table : gmap pystr json)
    (day : pystr) (payload : json) :
  let stop := clock w (clock_reads w) in
  let rq := range_request start stop base target in
  Date.sub_days stop days = Ok start ->
  server w (sent w) rq = Responded status (Some (JObj data)) ->
  (400 <=? status) && (status <? 600) = false ->
  data !! lit "rates" = Some (JObj table) ->
  table !! day = Some payload ->
  (forall p, payload <> JObj p) ->
  is_ok (fst (fetch_timeseries base target days w)) = false.
Proof.
  intros stop rq Hstart Hsrv Hst Hdata Hday Hpayload.
  rewrite (fetch_timeseries_run base target days w start status data table)
    by assumption.
  simpl.
  destruct (collect_rates (JObj table) target (sorted (map fst (map_to_list table))) [])
    as [rates|e] eqn:Hcol; [|reflexivity].
  exfalso.
  apply collect_rates_spec in Hcol as [Hall _];
    [|apply sorted_keys_NoDup | intros ? _; apply not_elem_of_nil].
  rewrite Forall_forall in Hall.
  assert (Hin : day ∈ sorted (map fst (map_to_list table)))
    by (apply elem_of_keys; eauto).
  apply Hall in Hin. unfold day_value, subscript in Hin. rewrite Hday in Hin.
  destruct payload; simpl in Hin; try discriminate.
  eapply Hpayload. reflexivity.
Qed.

End ClientFacts.

(** ** Validation *)

Section ValidationFacts.
Context {db : CharDb}.

Lemma lstrip_spaces (l s : pystr) :
  forallb chr_isspace l = true -> lstrip (l ++ s) = lstrip s.
Proof.
  induction l as [|c l IH]; simpl; [reflexivity|].
  intros [Hc Hl]%andb_true_iff. rewrite Hc. apply IH. exact Hl.
Qed.

Lemma lstrip_all_spaces (l : pystr) :
  forallb chr_isspace l = true -> lstrip l = [].
Proof.
  intros Hl. rewrite <- (app_nil_r l). rewrite lstrip_spaces by exact Hl. reflexivity.
Qed.

Lemma lstrip_app (s r : pystr) :
  lstrip s <> [] -> lstrip (s ++ r) = lstrip s ++ r.
Proof.
  induction s as [|c s IH]; simpl; [contradiction|].
  destruct (chr_isspace c); [exact IH | reflexivity].
Qed.

Lemma forallb_rev {A} (f : A -> bool) (l : list A) :
  forallb f l = true -> forallb f (rev l) = true.
Proof.
  rewrite !forallb_forall. intros H x Hx. apply H. now apply in_rev.
Qed.

Lemma rstrip_spaces (s r : pystr) :
  forallb chr_isspace r = true -> rstrip (s ++ r) = rstrip s.
Proof.
  intros Hr. unfold rstrip. rewrite rev_app_distr.
  rewrite lstrip_spaces by (apply forallb_rev; exact Hr). reflexivity.
Qed.

Lemma strip_spaces (l s r : pystr) :
  forallb chr_isspace l = true -> forallb chr_isspace r = true ->
  strip (l ++ s ++ r) = strip s.
Proof.
  intros Hl Hr. unfold strip. rewrite lstrip_spaces by exact Hl.
  destruct (lstrip s) as [|c t] eqn:Hs.
  - destruct (lstrip_split s) as (l' & Hs' & Hl'). rewrite Hs, app_nil_r in Hs'. subst l'.
    rewrite lstrip_spaces by exact Hl'.
    rewrite lstrip_all_spaces by exact Hr. reflexivity.
  - rewrite lstrip_app by (rewrite Hs; discriminate).
    rewrite Hs. apply rstrip_spaces. exact Hr.
Qed.

(** X7: white space around a code does not matter: [normalize_ccy] returns
    the same code with it as without it. *)
Theorem normalize_ccy_ignores_spaces (l s r c : pystr) :
  forallb chr_isspace l = true ->
  forallb chr_isspace r = true ->
  normalize_ccy (l ++ s ++ r) = Ok c <-> normalize_ccy s = Ok c.
Proof.
  intros Hl Hr. unfold normalize_ccy. rewrite strip_spaces by assumption.
  destruct (negb (length (upper (strip s)) =? 3)%nat || negb (isalpha (upper (strip s))));
    [split; discriminate | reflexivity].
Qed.

Lemma strip_no_spaces (c : pystr) :
  Forall (fun x => chr_isspace x = false) c -> strip c = c.
Proof.
  intros Hc.
  assert (Hl : forall s, Forall (fun x => chr_isspace x = false) s -> lstrip s = s).
  { intros [|x s] Hs; [reflexivity|]. simpl.
    apply Forall_cons in Hs as [-> _]. reflexivity. }
  unfold strip, rstrip. rewrite (Hl c Hc).
  rewrite Hl; [apply rev_involutive|].
  rewrite Forall_forall in *. intros x Hx%list_elem_of_In%in_rev. apply Hc.
  now apply list_elem_of_In.
Qed.

Lemma upper_fixed (c : pystr) :
  Forall (fun x => chr_upper x = [x]) c -> upper c = c.
Proof.
  unfold upper. induction 1 as [|x c Hx _ IH]; simpl; [reflexivity|].
  rewrite Hx, IH. reflexivity.
Qed.

(** X8: on a character table where letters are not white space and
    upper-casing twice is upper-casing once, a code that [normalize_ccy]
    returns is accepted by it unchanged. *)
Theorem normalize_ccy_idempotent (s c : pystr) :
  (forall x, chr_isalpha x = true -> chr_isspace x = false) ->
  (forall x y, In y (chr_upper x) -> chr_upper y = [y]) ->
  normalize_ccy s = Ok c ->
  normalize_ccy c = Ok c.
Proof.
  intros Hletters Hupper Hs. unfold normalize_ccy in Hs.
  destruct (Nat.eqb_spec (length (upper (strip s))) 3) as [Hlen|]; [|discriminate].
  destruct (isalpha (upper (strip s))) eqn:Halpha; [|discriminate].
  injection Hs as Hc. rewrite Hc in Hlen, Halpha.
  pose proof (proj1 (isalpha_Forall c) Halpha) as [_ Hall].
  assert (Hstrip : strip c = c).
  { apply strip_no_spaces. eapply Forall_impl; [exact Hall|]. exact Hletters. }
  assert (Hup : upper c = c).
  { apply upper_fixed. rewrite Forall_forall. intros y Hy%list_elem_of_In.
    rewrite <- Hc in Hy. unfold upper in Hy. apply in_flat_map in Hy as (x & _ & Hy).
    eapply Hupper. exact Hy. }
  unfold normalize_ccy. rewrite Hstrip, Hup, Hlen, Halpha. reflexivity.
Qed.

End ValidationFacts.

(** The Latin-1 table meets the two conditions. *)

Ltac split_ranges :=
  repeat (match goal with
          | |- context [(?a <=? ?b)%N] => destruct (N.leb_spec a b)
          | |- context [(?a =? ?b)%N] => destruct (N.eqb_spec a b)
          | H : context [(?a <=? ?b)%N] |- _ => destruct (N.leb_spec a b)
          | H : context [(?a =? ?b)%N] |- _ => destruct (N.eqb_spec a b)
          end; try lia);
  simpl in *.

Lemma latin1_letters_not_space (x : codepoint) :
  latin1_isalpha x = true -> latin1_isspace x = false.
Proof.
  unfold latin1_isalpha, latin1_isspace, in_range. intros H.
  split_ranges; first [reflexivity | discriminate].
Qed.

Lemma latin1_upper_twice (x y : codepoint) :
  In y (latin1_upper x) -> latin1_upper y = [y].
Proof.
  unfold latin1_upper, in_range at 1 2 3.
  intros H. split_ranges;
    repeat (destruct H as [H|H]; [subst y|]); try contradiction;
    unfold latin1_upper, in_range; split_ranges; reflexivity.
Qed.

(** ** Runs of [on_convert] *)

Lemma World_eq (a b : World) :
  server a = server b -> clock a = clock b -> sent a = sent b ->
  clock_reads a = clock_reads b -> amount_var a = amount_var b ->
  base_var a = base_var b -> target_var a = target_var b -> days_var a = days_var b ->
  output a = output b -> dialogs a = dialogs b -> figures a = figures b ->
  shows a = shows b -> a = b.
Proof. destruct a, b. simpl. intros. subst. reflexivity. Qed.

Section RunFacts.
Context {db : CharDb} {rt : Runtime}.

Lemma write_lines_world (lines : list pystr) (w : World) :
  write_lines lines w = (Ok tt, with_output w (output w ++ lines_text lines)).
Proof.
  revert w. induction lines as [|l lines IH]; intros w; simpl.
  - unfold ret. f_equal. apply World_eq; try reflexivity. simpl. now rewrite app_nil_r.
  - unfold bind, write_line. rewrite IH. f_equal.
    apply World_eq; try reflexivity. simpl. now rewrite <- !app_assoc.
Qed.

(** Every run ends in one of the six ways. *)
Lemma convert_and_plot_outcome (w : World) : run_outcome w (convert_and_plot w).
Proof.
  unfold convert_and_plot. unfold bind at 1. unfold lift at 1.
  destruct (read_inputs w) as [[[[amount base] target] days]|e] eqn:Hin;
    [|apply run_invalid; exact Hin].
  unfold bind at 1.
  destruct (fetch_conversion amount base target w) as [[[converted today_rate]|e] w1] eqn:Hconv;
    [|eapply run_no_conversion; eassumption].
  unfold bind at 1. unfold clear_output at 1.
  unfold bind at 1. rewrite write_lines_world.
  change (with_output (with_output w1 []) (output (with_output w1 []) ++ ?t))
    with (after_summary w1 amount base target converted today_rate).
  unfold history_and_plots. unfold bind at 1.
  destruct (fetch_timeseries base target days
              (after_summary w1 amount base target converted today_rate))
    as [[rates|e] w2] eqn:Hhist;
    [|eapply run_no_history; eassumption].
  unfold bind at 1.
  destruct (period_average rates w2) as [[avg_rate|e] w3] eqn:Havg;
    [|eapply run_no_average; eassumption].
  unfold bind at 1, write_line at 1. unfold bind at 1, write_line at 1.
  unfold bind at 1, plot_rate_history.
  destruct (first_bad_date rates) as [bad|] eqn:Hbad; unfold first_bad_date in Hbad;
    rewrite Hbad.
  - unfold raise.
    replace (with_output _ _) with (after_average w3 days avg_rate base target).
    + eapply run_no_plot; eassumption.
    + apply World_eq; try reflexivity.
      unfold after_average, lines_text, average_lines.
      cbn [output with_output flat_map]. rewrite app_nil_r, <- !app_assoc. reflexivity.
  - unfold add_figure at 1, bind at 1, plot_today_vs_avg, add_figure at 1.
    unfold bind at 1, plot_amount_comparison, add_figure, plt_show.
    match goal with
    | |- run_outcome w (Ok tt, ?final) =>
        replace final
          with (after_charts (after_average w3 days avg_rate base target)
                  (charts amount base target converted today_rate rates avg_rate))
    end.
    + eapply run_done; eassumption.
    + apply World_eq; try reflexivity.
      * unfold after_charts, after_average, lines_text, average_lines.
        cbn [output with_output with_figures with_shows flat_map].
        rewrite app_nil_r, <- !app_assoc. reflexivity.
      * unfold after_charts, charts.
        cbn [figures with_output with_figures with_shows after_average].
        rewrite <- !app_assoc. reflexivity.
Qed.

(** What each stage may do to the world. *)

Lemma fetch_conversion_world (amount : float) (base target : pystr) (w : World) :
  snd (fetch_conversion amount base target w) = w
  \/ snd (fetch_conversion amount base target w)
     = with_net w (sent w ++ [latest_request amount base target]).
Proof.
  destruct (decide (base = target)) as [->|Hne].
  - left. rewrite fetch_conversion_same. reflexivity.
  - right. apply fetch_conversion_cases. exact Hne.
Qed.

Lemma fetch_timeseries_world (base target : pystr) (days : Z) (w : World) :
  snd (fetch_timeseries base target days w) = with_clock_reads w (S (clock_reads w))
  \/ exists start,
       snd (fetch_timeseries base target days w)
       = after_history_request w
           (range_request start (clock w (clock_reads w)) base target).
Proof.
  unfold fetch_timeseries, today. run.
  destruct (Date.sub_days (clock w (clock_reads w)) days) as [start|e]; run;
    [|left; reflexivity].
  right. exists start. simpl.
  destruct (server w (sent w) _) as [|status body]; run; [reflexivity|].
  destruct ((400 <=? status) && (status <? 600)); run; [reflexivity|].
  destruct body as [data|]; run; [|reflexivity].
  destruct (py_in (lit "rates") data) as [[|]|]; simpl; try reflexivity.
  destruct (subscript data (lit "rates")) as [table|]; simpl; [|reflexivity].
  destruct (dict_keys table) as [keys|]; simpl; [|reflexivity].
  destruct (collect_rates table target (sorted keys) []) as [[|]|]; reflexivity.
Qed.

Lemma period_average_world (rates : series) (w : World) :
  snd (period_average rates w) = w
  \/ snd (period_average rates w) = with_clock_reads w (S (clock_reads w)).
Proof.
  unfold period_average, is_today_included.
  destruct (last (map fst rates)); unfold today; run; [right|left]; simpl;
    repeat match goal with
           | |- context [if ?b then _ else _] => destruct b
           | |- context [float_div_int ?x ?n] => destruct (float_div_int x n)
           end; reflexivity.
Qed.

Ltac frames :=
  repeat match goal with
         | H : fetch_conversion ?a ?b ?t ?w = (_, ?w1) |- _ =>
             let F := fresh "F" in
             pose proof (fetch_conversion_world a b t w) as F;
             rewrite H in F; cbn [snd] in F; clear H;
             destruct F as [F|F]; subst w1
         | H : fetch_timeseries ?b ?t ?d ?w = (_, ?w2) |- _ =>
             let F := fresh "F" in
             pose proof (fetch_timeseries_world b t d w) as F;
             rewrite H in F; cbn [snd] in F; clear H;
             destruct F as [F|[? F]]; subst w2
         | H : period_average ?r ?w = (_, ?w3) |- _ =>
             let F := fresh "F" in
             pose proof (period_average_world r w) as F;
             rewrite H in F; cbn [snd] in F; clear H;
             destruct F as [F|F]; subst w3
         end.

Lemma on_convert_outcome (w : World) :
  exists r w', run_outcome w (r, w')
    /\ on_convert w = match r with
                      | Ok _ => w'
                      | Raise e => showerror (error_box e) w'
                      end.
Proof.
  pose proof (convert_and_plot_outcome w) as H.
  destruct (convert_and_plot w) as [r w'] eqn:Hrun.
  exists r, w'. split; [exact H|].
  unfold on_convert, error_box. rewrite Hrun.
  destruct r as [|e]; [reflexivity|]. destruct (is_request_exception e); reflexivity.
Qed.

(** X9: a run issues at most two requests: one conversion request, or none
    when the two codes are equal, and after it at most one history request. *)
Theorem on_convert_requests (w : World) :
  exists l,
    sent (on_convert w) = sent w ++ l
    /\ (l = []
        \/ (exists amount base target, l = [latest_request amount base target])
        \/ (exists start stop base target, l = [range_request start stop base target])
        \/ (exists amount start stop base target,
              l = [latest_request amount base target;
                   range_request start stop base target])).
Proof.
  destruct (on_convert_outcome w) as (r & w' & Hout & ->).
  inversion Hout; subst; frames; simpl;
    rewrite <- ?app_assoc; simpl;
    first [ exists []; rewrite app_nil_r; split; [reflexivity | left; reflexivity]
          | eexists; split; [reflexivity|]; eauto 10 ].
Qed.

(** X10: a run ends in one of two ways: three figures are made and shown
    once and there is no error box, or there is exactly one error box and
    nothing is shown. *)
Theorem on_convert_one_ending (w : World) :
  (dialogs (on_convert w) = dialogs w
   /\ shows (on_convert w) = S (shows w)
   /\ exists figs, length figs = 3%nat /\ figures (on_convert w) = figures w ++ figs)
  \/ (exists d, dialogs (on_convert w) = dialogs w ++ [d]
                /\ shows (on_convert w) = shows w).
Proof.
  destruct (on_convert_outcome w) as (r & w' & Hout & ->).
  inversion Hout; subst; frames; simpl;
    first [ left; repeat split; eexists; split; [|reflexivity]; reflexivity
          | right; eexists; repeat split; reflexivity ].
Qed.

(** X11: once the inputs are valid and the conversion has returned, the text
    area holds the five lines of the summary in place of what it held,
    followed by the two lines of the average or by nothing, however the
    run ends. *)
Theorem on_convert_summary_stays (w w1 : World) (amount : float) (base target : pystr)
    (days : Z) (converted today_rate : float) :
  read_inputs w = Ok (amount, base, target, days) ->
  fetch_conversion amount base target w = (Ok (converted, today_rate), w1) ->
  exists rest,
    output (on_convert w)
    = lines_text (summary amount base target converted today_rate) ++ rest
    /\ (rest = []
        \/ exists avg_rate, rest = lines_text (average_lines days avg_rate base target)).
Proof.
  intros Hin Hconv.
  destruct (on_convert_outcome w) as (r & w' & Hout & ->).
  inversion Hout; subst;
    try congruence;
    match goal with
    | H : read_inputs w = Ok _ |- _ => rewrite Hin in H; injection H as <- <- <- <-
    end;
    match goal with
    | H : fetch_conversion _ _ _ w = _ |- _ => rewrite Hconv in H; injection H as <- <- <-
    end;
    frames; simpl;
    first [ exists []; rewrite app_nil_r; split; [reflexivity | left; reflexivity]
          | eexists; split; [reflexivity | right; eexists; reflexivity] ].
Qed.


(** X13: inputs that pass validation are the parsed amount, two codes of
    three alphabetic characters each, and a number of days that is at least
    one, thirty when the entry is blank. *)
Theorem read_inputs_valid (w : World) (amount : float) (base target : pystr) (days : Z) :
  read_inputs w = Ok (amount, base, target, days) ->
  parse_float (amount_var w) = Some amount
  /\ length base = 3%nat /\ Forall (fun c => chr_isalpha c = true) base
  /\ length target = 3%nat /\ Forall (fun c => chr_isalpha c = true) target
  /\ 1 <= days
  /\ (strip (days_var w) = [] -> days = 30).
Proof.
  unfold read_inputs, float_of_str, int_of_str.
  destruct (parse_float (amount_var w)) as [a|]; [|discriminate].
  destruct (normalize_ccy (base_var w)) as [b|] eqn:Hb; [|discriminate].
  destruct (normalize_ccy (target_var w)) as [t|] eqn:Ht; [|discriminate].
  assert (Hcode : forall s c, normalize_ccy s = Ok c ->
                    length c = 3%nat /\ Forall (fun x => chr_isalpha x = true) c).
  { intros s c. unfold normalize_ccy.
    destruct (Nat.eqb_spec (length (upper (strip s))) 3) as [Hlen|]; [|discriminate].
    destruct (isalpha (upper (strip s))) eqn:Ha; [|discriminate].
    intros [= <-]. split; [exact Hlen | apply isalpha_Forall; exact Ha]. }
  destruct (Hcode _ _ Hb) as [? ?]. destruct (Hcode _ _ Ht) as [? ?].
  destruct (strip (days_var w)) as [|c s].
  - simpl. intros [= <- <- <- <-]. repeat split; try assumption; lia.
  - destruct (parse_int (c :: s)) as [n|]; [|discriminate].
    destruct (Z.ltb_spec n 1); [discriminate|].
    intros [= <- <- <- <-]. repeat split; try assumption. discriminate.
Qed.

(** X14: [period_average] divides by zero exactly on the empty series: the
    guard on the number of entries keeps the average without today from
    dividing by zero. *)
Theorem period_average_zero_division (rates : series) (w : World) :
  fst (period_average rates w) = Raise ZeroDivisionError <-> rates = [].
Proof.
  assert (Hdiv : forall x n, 0 < n -> float_div_int x n <> Raise ZeroDivisionError).
  { intros x n Hn. unfold float_div_int, float_of_int.
    destruct (Z.eqb_spec n 0); [lia|]. destruct (is_infinity _); discriminate. }
  split.
  - intros Hraise. destruct rates as [|entry rates]; [reflexivity|]. exfalso.
    rewrite period_average_mean in Hraise by discriminate.
    unfold mean_excluding_today, arithmetic_mean in Hraise.
    destruct (bool_decide _) eqn:Hdec in Hraise.
    + apply bool_decide_eq_true in Hdec as [_ Hlen].
      apply Hdiv in Hraise; [exact Hraise|].
      rewrite removelast_length_Z, length_map by discriminate. simpl in *. lia.
    + apply Hdiv in Hraise; [exact Hraise|]. simpl. lia.
  - intros ->. reflexivity.
Qed.

End RunFacts.

(** ** Dates

    The conversion between dates and ordinals repeats every 400 years, that
    is every 146097 days; what holds on the first cycle, checked day by
    day, holds on all of them. *)

Lemma all_from_spec (n : nat) (start : Z) (f : Z -> bool) :
  all_from n start f = true ->
  forall r, start <= r < start + Z.of_nat n -> f r = true.
Proof.
  revert start. induction n as [|n IH]; intros start Hall r Hr; [lia|].
  simpl in Hall. apply andb_true_iff in Hall as [Hstart Hrest].
  destruct (Z.eq_dec r start) as [->|Hne]; [exact Hstart|].
  apply (IH (start + 1) Hrest). lia.
Qed.

Lemma fromordinal_cycle (n : Z) :
  Date.fromordinal n
  = shift_years (400 * ((n - 1) / 146097))
      (Date.fromordinal ((n - 1) mod 146097 + 1)).
Proof.
  unfold Date.fromordinal. cbv zeta.
  set (q := (n - 1) / 146097). set (r := (n - 1) mod 146097).
  assert (Hr : 0 <= r < 146097) by (apply Z.mod_pos_bound; lia).
  replace (r + 1 - 1) with r by lia.
  rewrite (Z.div_small r 146097), (Z.mod_small r 146097) by exact Hr.
  unfold shift_years.
  repeat match goal with
         | |- context [if ?b then _ else _] => destruct b
         end; simpl; f_equal; lia.
Qed.

Lemma is_leap_shift (y q : Z) : Date.is_leap (y + 400 * q) = Date.is_leap y.
Proof.
  unfold Date.is_leap.
  replace ((y + 400 * q) mod 4) with (y mod 4)
    by (replace (400 * q) with ((100 * q) * 4) by lia; now rewrite Z_mod_plus_full).
  replace ((y + 400 * q) mod 100) with (y mod 100)
    by (replace (400 * q) with ((4 * q) * 100) by lia; now rewrite Z_mod_plus_full).
  replace ((y + 400 * q) mod 400) with (y mod 400)
    by (replace (400 * q) with (q * 400) by lia; now rewrite Z_mod_plus_full).
  reflexivity.
Qed.

Lemma days_before_year_shift (y q : Z) :
  Date.days_before_year (y + 400 * q) = Date.days_before_year y + 146097 * q.
Proof.
  unfold Date.days_before_year. cbv zeta.
  replace ((y + 400 * q - 1) / 4) with ((y - 1) / 4 + 100 * q)
    by (replace (y + 400 * q - 1) with (y - 1 + (100 * q) * 4) by lia;
        now rewrite Z.div_add by lia).
  replace ((y + 400 * q - 1) / 100) with ((y - 1) / 100 + 4 * q)
    by (replace (y + 400 * q - 1) with (y - 1 + (4 * q) * 100) by lia;
        now rewrite Z.div_add by lia).
  replace ((y + 400 * q - 1) / 400) with ((y - 1) / 400 + q)
    by (replace (y + 400 * q - 1) with (y - 1 + q * 400) by lia;
        now rewrite Z.div_add by lia).
  lia.
Qed.

Lemma toordinal_shift (q : Z) (d : Date.t) :
  Date.toordinal (shift_years (400 * q) d) = Date.toordinal d + 146097 * q.
Proof.
  unfold Date.toordinal, Date.days_before_month, shift_years. simpl.
  rewrite is_leap_shift, days_before_year_shift. lia.
Qed.

Lemma cycle_checked : all_from (Z.to_nat 146097) 0 cycle_ok = true.
Proof. vm_compute. reflexivity. Qed.

Lemma cycle_ok_all (r : Z) : 0 <= r < 146097 -> cycle_ok r = true.
Proof.
  intros Hr. apply (all_from_spec _ _ _ cycle_checked).
  rewrite Z2Nat.id by lia. lia.
Qed.

Lemma toordinal_fromordinal (n : Z) : Date.toordinal (Date.fromordinal n) = n.
Proof.
  rewrite fromordinal_cycle, toordinal_shift.
  assert (Hr : 0 <= (n - 1) mod 146097 < 146097) by (apply Z.mod_pos_bound; lia).
  pose proof (cycle_ok_all _ Hr) as Hok. unfold cycle_ok in Hok. cbv zeta in Hok.
  rewrite !andb_true_iff in Hok. destruct Hok as [[[[[[[Hord _] _] _] _] _] _] _].
  apply Z.eqb_eq in Hord. rewrite Hord.
  pose proof (Z.div_mod (n - 1) 146097 ltac:(lia)). lia.
Qed.

Lemma fromordinal_valid (n : Z) :
  1 <= n <= Date.max_ordinal -> Date.valid (Date.fromordinal n) = true.
Proof.
  unfold Date.max_ordinal. intros Hn.
  rewrite fromordinal_cycle.
  assert (Hr : 0 <= (n - 1) mod 146097 < 146097) by (apply Z.mod_pos_bound; lia).
  pose proof (cycle_ok_all _ Hr) as Hok. unfold cycle_ok in Hok. cbv zeta in Hok.
  pose proof (Z.div_mod (n - 1) 146097 ltac:(lia)) as Hdm.
  set (q := (n - 1) / 146097) in *. set (r := (n - 1) mod 146097) in *.
  set (d := Date.fromordinal (r + 1)) in *.
  rewrite !andb_true_iff, orb_true_iff, !Z.leb_le, Z.ltb_lt in Hok.
  destruct Hok as [[[[[[[_ Hy1] Hy2] Hy3] Hm1] Hm2] Hd1] Hd2].
  assert (Hq : 0 <= q <= 24) by lia.
  unfold Date.valid, shift_years. simpl.
  unfold Date.days_in_month in *. rewrite is_leap_shift.
  rewrite !andb_true_iff, !Z.leb_le. repeat split; try lia.
Qed.

Lemma toordinal_bounds (d : Date.t) :
  Date.valid d = true -> 1 <= Date.toordinal d <= Date.max_ordinal.
Proof.
  unfold Date.valid, Date.toordinal, Date.days_before_month, Date.days_in_month,
    Date.max_ordinal, Date.days_before_year, Date.is_leap.
  destruct d as [y m dd]. simpl.
  rewrite !andb_true_iff, !Z.leb_le. intros [[[[[Hy1 Hy2] Hm1] Hm2] Hd1] Hd2].
  assert (Hm : m = 1 \/ m = 2 \/ m = 3 \/ m = 4 \/ m = 5 \/ m = 6 \/ m = 7 \/ m = 8
               \/ m = 9 \/ m = 10 \/ m = 11 \/ m = 12) by lia.
  assert (Hmonth : 0 <= Date.days_before_month_tbl m
                   /\ Date.days_before_month_tbl m
                        + (if m =? 2 then 28
                           else if (m =? 4) || (m =? 6) || (m =? 9) || (m =? 11) then 30
                                else 31) <= 365
                   /\ (m <= 2 -> Date.days_before_month_tbl m
                                  + (if m =? 2 then 29 else 31) <= 365)).
  { repeat (destruct Hm as [->|Hm]; [vm_compute; intuition discriminate|]).
    subst m. vm_compute. intuition discriminate. }
  destruct Hmonth as (Hm0 & Hm365 & Hm12).
  set (tbl := Date.days_before_month_tbl m) in *. clearbody tbl.
  destruct (Z.eqb_spec (y mod 4) 0), (Z.eqb_spec (y mod 100) 0), (Z.eqb_spec (y mod 400) 0),
    (Z.eqb_spec m 2), (Z.ltb_spec 2 m);
    simpl in *; try lia;
    try (destruct ((m =? 4) || (m =? 6) || (m =? 9) || (m =? 11)));
    Z.div_mod_to_equations; lia.
Qed.

(** [d - timedelta(days=n)] is the valid date [n] days before [d], as long
    as it does not leave the calendar. *)
Lemma sub_days_earlier (d : Date.t) (n : Z) :
  Date.valid d = true ->
  0 <= n < Date.toordinal d ->
  exists start,
    Date.sub_days d n = Ok start
    /\ Date.valid start = true
    /\ Date.toordinal start = Date.toordinal d - n.
Proof.
  intros Hd Hn. pose proof (toordinal_bounds d Hd) as Hb.
  unfold Date.max_ordinal in Hb.
  exists (Date.fromordinal (Date.toordinal d - n)). split; [|split].
  - unfold Date.sub_days, Date.max_ordinal.
    destruct (Z.ltb_spec 999999999 (Z.abs n)); [lia|].
    destruct (Z.ltb_spec (Date.toordinal d - n) 1); [lia|].
    destruct (Z.ltb_spec 3652059 (Date.toordinal d - n)); [lia|]. reflexivity.
  - apply fromordinal_valid. unfold Date.max_ordinal. lia.
  - apply toordinal_fromordinal.
Qed.

Section WindowFacts.
Context {rt : Runtime}.

Lemma fetch_timeseries_world_from (base target : pystr) (days : Z) (w : World)
    (start : Date.t) :
  Date.sub_days (clock w (clock_reads w)) days = Ok start ->
  snd (fetch_timeseries base target days w)
  = after_history_request w
      (range_request start (clock w (clock_reads w)) base target).
Proof.
  intros Hstart. unfold fetch_timeseries, today. run. rewrite Hstart. run. simpl.
  destruct (server w (sent w) _) as [|status body]; run; [reflexivity|].
  destruct ((400 <=? status) && (status <? 600)); run; [reflexivity|].
  destruct body as [data|]; run; [|reflexivity].
  destruct (py_in (lit "rates") data) as [[|]|]; simpl; try reflexivity.
  destruct (subscript data (lit "rates")) as [table|]; simpl; [|reflexivity].
  destruct (dict_keys table) as [keys|]; simpl; [|reflexivity].
  destruct (collect_rates table target (sorted keys) []) as [[|]|]; reflexivity.
Qed.

(** X15: when today is a date of the calendar and [days] is not negative
    and less than today's ordinal, [fetch_timeseries] asks for the window
    from the valid date exactly [days] days before today to today. *)
Theorem fetch_timeseries_window (base target : pystr) (days : Z) (w : World) :
  let stop := clock w (clock_reads w) in
  Date.valid stop = true ->
  0 <= days < Date.toordinal stop ->
  exists start,
    Date.valid start = true
    /\ Date.toordinal start = Date.toordinal stop - days
    /\ snd (fetch_timeseries base target days w)
       = after_history_request w (range_request start stop base target).
Proof.
  intros stop Hvalid Hdays.
  destruct (sub_days_earlier stop days Hvalid Hdays) as (start & Hsub & Hv & Hord).
  exists start. repeat split; try assumption.
  apply fetch_timeseries_world_from. exact Hsub.
Qed.

End WindowFacts.

(** *** Examples for the further properties *)

(** The service cannot be reached: the request has gone out all the same. *)
Lemma fetch_conversion_one_request_witness :
  let w := form offline on_2025_11_10 "100" "INR" "USD" "30" [] in
  snd (fetch_conversion (rt := demo_runtime) 100 INR USD w)
  = with_net w (sent w ++ [latest_request 100 INR USD])
  /\ sent (snd (fetch_conversion (rt := demo_runtime) 100 INR USD w))
     = [latest_request 100 INR USD].
Proof.
  intros w.
  pose proof (proj1 (fetch_conversion_one_request (rt := demo_runtime) 100 INR USD w
                       INR_not_USD)) as Hw.
  split; [exact Hw | rewrite Hw; reflexivity].
Defined.

(** Status 500 with a well-formed body: the status wins. *)
Lemma fetch_conversion_http_error_witness :
  let w := form (refusing 500) on_2025_11_10 "100" "INR" "USD" "30" [] in
  fst (fetch_conversion (rt := demo_runtime) 100 INR USD w)
  = Raise (RequestException (HttpStatus 500)).
Proof.
  intros w.
  refine (fetch_conversion_http_error (rt := demo_runtime) 100 INR USD w 500
            (Some (JObj (quote INR USD (JFloat 0x1.3333333333333p+0))))
            INR_not_USD _ _).
  - vm_compute. reflexivity.
  - lia.
Defined.

(** A quote for EUR when USD was asked for. *)
Lemma fetch_conversion_no_rate_witness :
  let w := form quoting_euro on_2025_11_10 "100" "INR" "USD" "30" [] in
  fst (fetch_conversion (rt := demo_runtime) 100 INR USD w)
  = Raise (ValueError (NoRateReturned INR USD (JObj (quote INR (lit "EUR") (JFloat 1))))).
Proof.
  intros w.
  refine (fetch_conversion_no_rate (rt := demo_runtime) 100 INR USD w 200
            (quote INR (lit "EUR") (JFloat 1)) INR_not_USD _ _ _).
  - vm_compute. reflexivity.
  - reflexivity.
  - right. exists (quote_rates (lit "EUR") (JFloat 1)). split; vm_compute; reflexivity.
Defined.

(** An answer that only says "not found". *)
Lemma fetch_timeseries_no_rates_field_witness :
  let w := form (answering not_found) on_2025_11_10 "100" "INR" "USD" "30" [] in
  fetch_timeseries (rt := demo_runtime) INR USD 30 w
  = (Raise (ValueError (TimeseriesFailed (JObj not_found))),
     after_history_request w history_request).
Proof.
  intros w.
  refine (fetch_timeseries_no_rates_field (rt := demo_runtime) INR USD 30 w
            (Date.mk 2025 10 11) 200 not_found _ _ _ _);
    vm_compute; reflexivity.
Defined.

(** A million days back from 2025 is before the year 1. *)
Lemma fetch_timeseries_window_overflow_witness :
  let w := form offline on_2025_11_10 "100" "INR" "USD" "1000000" [] in
  fetch_timeseries (rt := demo_runtime) INR USD 1000000 w
  = (Raise OverflowError, with_clock_reads w 1)
  /\ sent (snd (fetch_timeseries (rt := demo_runtime) INR USD 1000000 w)) = [].
Proof.
  intros w.
  apply (fetch_timeseries_window_overflow (rt := demo_runtime) INR USD 1000000 w).
  vm_compute. discriminate.
Defined.

Lemma broken_day_not_dict (p : gmap pystr json) : JInt 20 <> JObj p.
Proof. discriminate. Defined.

(** One day holds a number where a dict is expected. *)
Lemma fetch_timeseries_unreadable_day_witness :
  let w := form (answering (history broken_days)) on_2025_11_10
             "100" "INR" "USD" "30" [] in
  is_ok (fst (fetch_timeseries (rt := demo_runtime) INR USD 30 w)) = false.
Proof.
  intros w.
  refine (fetch_timeseries_unreadable_day (rt := demo_runtime) INR USD 30 w
            (Date.mk 2025 10 11) 200 (history broken_days) broken_table
            (lit "2025-11-09") (JInt 20) _ _ _ _ _ broken_day_not_dict);
    vm_compute; reflexivity.
Defined.

(** Blanks before and a line end after ["usd"]. *)
Lemma normalize_ccy_ignores_spaces_witness :
  normalize_ccy (db := latin1) (lit "  " ++ lit "usd" ++ [10%N]) = Ok USD
  <-> normalize_ccy (db := latin1) (lit "usd") = Ok USD.
Proof.
  apply (normalize_ccy_ignores_spaces (db := latin1) (lit "  ") (lit "usd") [10%N] USD);
    reflexivity.
Defined.

(** ["USD"], as returned for ["usd "], is accepted as it is. *)
Lemma normalize_ccy_idempotent_witness :
  normalize_ccy (db := latin1) USD = Ok USD.
Proof.
  apply (normalize_ccy_idempotent (db := latin1) (lit "usd ") USD
           latin1_letters_not_space latin1_upper_twice).
  reflexivity.
Defined.

(** The history cannot be fetched: the summary has replaced ["old"]. *)
Lemma on_convert_summary_stays_witness :
  let w := form (quoting 0x1.3333333333333p+0) on_2025_11_10
             "100" "INR" "USD" "30" (lit "old") in
  exists rest,
    output (on_convert (db := latin1) (rt := demo_runtime) w)
    = lines_text (summary 100 INR USD 0x1.3333333333333p+0 0x1.89374bc6a7efap-7) ++ rest
    /\ (rest = []
        \/ exists avg_rate, rest = lines_text (average_lines 30 avg_rate INR USD)).
Proof.
  intros w.
  refine (on_convert_summary_stays (db := latin1) (rt := demo_runtime) w
            (with_net w [latest_request 100 INR USD]) 100 INR USD 30
            0x1.3333333333333p+0 0x1.89374bc6a7efap-7 _ _);
    vm_compute; reflexivity.
Defined.


(** Codes in lower case with blanks around them, and a blank days entry. *)
Lemma read_inputs_valid_witness :
  let w := form offline on_2025_11_10 "100" " inr" "usd " " " [] in
  parse_float (Runtime := demo_runtime) (amount_var w) = Some 100%float
  /\ length INR = 3%nat /\ Forall (fun c => latin1_isalpha c = true) INR
  /\ length USD = 3%nat /\ Forall (fun c => latin1_isalpha c = true) USD
  /\ 1 <= 30
  /\ (strip (db := latin1) (days_var w) = [] -> 30 = 30).
Proof.
  intros w.
  refine (read_inputs_valid (db := latin1) (rt := demo_runtime) w 100 INR USD 30 _).
  vm_compute. reflexivity.
Defined.

(** Thirty days back from 2025-11-10 is 2025-10-11. *)
Lemma fetch_timeseries_window_witness :
  let w := form offline on_2025_11_10 "100" "INR" "USD" "30" [] in
  exists start,
    Date.valid start = true
    /\ Date.toordinal start = Date.toordinal on_2025_11_10 - 30
    /\ snd (fetch_timeseries (rt := demo_runtime) INR USD 30 w)
       = after_history_request w (range_request start on_2025_11_10 INR USD).
Proof.
  intros w.
  refine (fetch_timeseries_window (rt := demo_runtime) INR USD 30 w _ _).
  - vm_compute. reflexivity.
  - vm_compute. split; [discriminate | reflexivity].
Defined.

(** ** Further properties of the two fetches *)

Section MoreFacts.
Context {db : CharDb} {rt : Runtime}.

(** X16: when the inputs are valid, the two codes differ and the service
    cannot be reached, the run ends with the Network Error box for the
    transport failure, after one request and with the form otherwise as it
    was. *)
Theorem on_convert_unreachable (w : World) (amount : float) (base target : pystr)
    (days : Z) :
  read_inputs w = Ok (amount, base, target, days) ->
  base <> target ->
  server w (sent w) (latest_request amount base target) = Unreachable ->
  on_convert w
  = showerror (NetworkErrorBox (RequestException Transport))
      (with_net w (sent w ++ [latest_request amount base target])).
Proof.
  intros Hin Hne Hsrv.
  assert (Hconv : fetch_conversion amount base target w
                  = (Raise (RequestException Transport),
                     with_net w (sent w ++ [latest_request amount base target]))).
  { unfold fetch_conversion. rewrite bool_decide_eq_false_2 by exact Hne.
    unfold bind at 1, requests_get. rewrite Hsrv. reflexivity. }
  destruct (on_convert_outcome w) as (r & w' & Hout & ->).
  inversion Hout; subst; try congruence.
  rewrite Hin in H1. injection H1 as <- <- <- <-.
  rewrite Hconv in H2. injection H2 as <- <-. reflexivity.
Qed.

(** X17: when every payload of the table is a dict whose value for the
    target, if any, is a float, and some day has one, [fetch_timeseries]
    returns, and its entries are exactly the days that have a value, each
    with that value. *)
Theorem fetch_timeseries_floats (base target : pystr) (days : Z) (w : World)
    (start : Date.t) (status : Z) (data table : gmap pystr json) :
  let stop := clock w (clock_reads w) in
  let rq := range_request start stop base target in
  Date.sub_days stop days = Ok start ->
  server w (sent w) rq = Responded status (Some (JObj data)) ->
  (400 <=? status) && (status <? 600) = false ->
  data !! lit "rates" = Some (JObj table) ->
  (forall day payload,
      table !! day = Some payload ->
      exists p, payload = JObj p
                /\ (p !! target = None \/ exists x, p !! target = Some (JFloat x))) ->
  (exists day p x, table !! day = Some (JObj p) /\ p !! target = Some (JFloat x)) ->
  exists rates,
    fetch_timeseries base target days w = (Ok rates, after_history_request w rq)
    /\ forall day x,
         In (day, x) rates
         <-> exists p, table !! day = Some (JObj p) /\ p !! target = Some (JFloat x).
Proof.
  intros stop rq Hstart Hsrv Hst Hdata Hshape (day0 & p0 & x0 & Hday0 & Hx0).
  set (keys := sorted (map fst (map_to_list table))).
  assert (Hsome : forall day p x,
             table !! day = Some (JObj p) -> p !! target = Some (JFloat x) ->
             day_value (JObj table) target day = Ok (Some x)).
  { intros day p x Hd Hx. apply day_value_some. exists p, (JFloat x).
    repeat split; try assumption. discriminate. }
  exists (kept (JObj table) target keys). split.
  - apply (fetch_timeseries_returns base target days w start status data table);
      try assumption.
    + rewrite Forall_forall. intros day Hday.
      apply elem_of_keys in Hday as [payload Hpayload].
      destruct (Hshape day payload Hpayload) as (p & -> & [Hnone|[x Hx]]).
      * replace (day_value (JObj table) target day) with (@Ok (option float) None);
          [reflexivity|]. symmetry. apply day_value_none. eauto.
      * rewrite (Hsome day p x Hpayload Hx). reflexivity.
    + intros Hnil.
      assert (Hin : (day0, x0) ∈ kept (JObj table) target keys).
      { apply elem_of_kept. split; [apply elem_of_keys; eauto | eauto]. }
      fold keys in Hnil. rewrite Hnil in Hin. apply not_elem_of_nil in Hin. exact Hin.
  - intros day x. rewrite <- list_elem_of_In, elem_of_kept. split.
    + intros [Hday Hval].
      apply day_value_some in Hval as (p & v & Hp & Hv & _ & Hfl).
      destruct (Hshape day (JObj p) Hp) as (p' & [= <-] & [Hnone|[x' Hx']]);
        [congruence|].
      rewrite Hv in Hx'. injection Hx' as ->. simpl in Hfl. injection Hfl as ->.
      eauto.
    + intros (p & Hp & Hx). split; [apply elem_of_keys; eauto | eauto].
Qed.

End MoreFacts.

(** The service cannot be reached at all. *)
Lemma on_convert_unreachable_witness :
  let w := form offline on_2025_11_10 "100" "INR" "USD" "30" (lit "old") in
  on_convert (db := latin1) (rt := demo_runtime) w
  = showerror (NetworkErrorBox (RequestException Transport))
      (with_net w (sent w ++ [latest_request 100 INR USD])).
Proof.
  intros w.
  refine (on_convert_unreachable (db := latin1) (rt := demo_runtime) w 100 INR USD 30
            _ INR_not_USD _);
    vm_compute; reflexivity.
Defined.

Lemma float_table_shape (day : pystr) (payload : json) :
  float_table !! day = Some payload ->
  exists p, payload = JObj p
            /\ (p !! USD = None \/ exists x, p !! USD = Some (JFloat x)).
Proof.
  unfold float_table, float_days. simpl.
  rewrite !lookup_insert_Some, lookup_empty.
  intros [[_ <-]|[_ [[_ <-]|[_ H]]]]; [| |discriminate];
    eexists; (split; [reflexivity|]).
  - right. eexists. vm_compute. reflexivity.
  - left. vm_compute. reflexivity.
Defined.

(** Two days, one with a float for USD and one with a rate for EUR only. *)
Lemma fetch_timeseries_floats_witness :
  let w := form (answering (history float_days)) on_2025_11_10
             "100" "INR" "USD" "30" [] in
  exists rates,
    fetch_timeseries (rt := demo_runtime) INR USD 30 w
    = (Ok rates, after_history_request w history_request)
    /\ forall day x,
         In (day, x) rates
         <-> exists p, float_table !! day = Some (JObj p) /\ p !! USD = Some (JFloat x).
Proof.
  intros w.
  refine (fetch_timeseries_floats (rt := demo_runtime) INR USD 30 w
            (Date.mk 2025 10 11) 200 (history float_days) float_table
            _ _ _ _ float_table_shape _);
    try (vm_compute; reflexivity).
  exists (lit "2025-11-08"), {[ USD := JFloat 10 ]}, 10%float.
  split; vm_compute; reflexivity.
Defined.
